(** * Hyperliquid liquidation bots

    A shallow embedding of the three polling bots of the repository

    - [bot_final_liquidations.py]  (class [HyperliquidLiquidationsBot]), module [Final];
    - [bot_railway.py]             (class [HyperliquidBot]),             module [Railway];
    - [bot_railway_futures.py]     (class [HyperliquidFuturesBot]),      module [Futures];

    and the properties of the classification, de-duplication, formatting and
    catalogue code that the specification states.

    Conventions of the embedding.

    - A Python [float] is a binary64 value: Rocq's primitive [float], with
      the kernel's IEEE-754 operations.  Python compares an [int] with a
      [float] by their exact values; [PyFloat.cmp_Z] does the same through
      the mantissa and exponent of the float.
    - A Python [str] is a [string] holding its UTF-8 bytes.  [str.lower]
      and [str.upper] change the case of the ASCII letters; [str.upper]
      also maps the characters whose upper case is made of ASCII letters
      (the long s among them), so that the comparisons of the code with
      its ASCII literals are those of Python.
    - A Python [set] of strings is a [gset string].
    - [try ... except Exception] blocks are modelled with the error monad
      [exn]: [Exc] is a raised exception, and every handler of the source is
      a [match] on it.
    - Network requests are inputs: each function that performs a request
      takes the outcome of the request as an argument. *)

From Stdlib Require Import ZArith String Ascii List Floats DecimalString.
From stdpp Require Import gmap strings.

Local Open Scope Z_scope.

(** ** Python numbers *)

Module PyFloat.

(** Sign-magnitude integer of a finite float's mantissa. *)
Definition signed (s : bool) (m : positive) : Z :=
  if s then Z.neg m else Z.pos m.

(** [cmp_Z f z]: the exact comparison of the float [f] with the integer
    [z], as Python's mixed [float]/[int] comparison computes it; [None]
    when [f] is a NaN (every ordered comparison is then false). *)
Definition cmp_Z (f : float) (z : Z) : option comparison :=
  match Prim2SF f with
  | S754_nan => None
  | S754_zero _ => Some (0 ?= z)
  | S754_infinity s => Some (if s then Lt else Gt)
  | S754_finite s m e =>
      Some (if 0 <=? e then signed s m * 2 ^ e ?= z
            else signed s m ?= z * 2 ^ (- e))
  end.

(** [f < z], [f >= z], [z < f] and [f > z] for a float [f] and an int [z]. *)
Definition lt_int (f : float) (z : Z) : bool :=
  match cmp_Z f z with Some Lt => true | _ => false end.

Definition ge_int (f : float) (z : Z) : bool :=
  match cmp_Z f z with Some Gt | Some Eq => true | _ => false end.

Definition int_lt (z : Z) (f : float) : bool :=
  match cmp_Z f z with Some Gt => true | _ => false end.

Definition gt_int (f : float) (z : Z) : bool :=
  match cmp_Z f z with Some Gt => true | _ => false end.

(** [a >= b] and [a > b] on floats. *)
Definition ge (a b : float) : bool := PrimFloat.leb b a.
Definition gt (a b : float) : bool := PrimFloat.ltb b a.

(** Nearest integer to [n / d] for [0 <= n] and [0 < d], ties to even:
    the rounding of the [f] presentation type. *)
Definition round_half_even (n d : Z) : Z :=
  let q := n / d in
  match 2 * (n mod d) ?= d with
  | Lt => q
  | Gt => q + 1
  | Eq => if Z.even q then q else q + 1
  end.

(** The magnitude [m * 2^e], scaled by [10^prec] and rounded. *)
Definition scaled (prec : nat) (m : positive) (e : Z) : Z :=
  let p := 10 ^ Z.of_nat prec in
  if 0 <=? e then Z.pos m * 2 ^ e * p
  else round_half_even (Z.pos m * p) (2 ^ (- e)).

Definition digits (n : Z) : string :=
  NilZero.string_of_uint (N.to_uint (Z.to_N n)).

Fixpoint zeros (n : nat) : string :=
  match n with O => EmptyString | S k => String "0" (zeros k) end.

(** Decimal digits of [n], left-padded with zeros to at least [w]. *)
Definition pad_left (w : nat) (s : string) : string :=
  zeros (w - String.length s) +:+ s.

(** Integer part and fractional digits of the scaled integer [n]. *)
Definition int_part (prec : nat) (n : Z) : string :=
  let s := pad_left (S prec) (digits n) in
  substring 0 (String.length s - prec) s.

Definition frac_part (prec : nat) (n : Z) : string :=
  let s := pad_left (S prec) (digits n) in
  substring (String.length s - prec) prec s.

(** The [,] option: a comma between groups of three integer digits. *)
Fixpoint group3 (s : string) (k : nat) : string :=
  match s with
  | EmptyString => EmptyString
  | String c rest =>
      let tail := group3 rest (Nat.pred k) in
      if (Nat.eqb (Nat.modulo (Nat.pred k) 3) 0 && negb (Nat.eqb (Nat.pred k) 0))%bool
      then String c (String "," tail) else String c tail
  end.

Definition grouped (s : string) : string := group3 s (String.length s).

Definition fixed (comma : bool) (prec : nat) (s : bool) (n : Z) : string :=
  let ip := int_part prec n in
  (if s then "-" else "") +:+ (if comma then grouped ip else ip)
    +:+ (match prec with O => "" | _ => "." +:+ frac_part prec n end).

(** [format(x, '.<prec>f')], and [format(x, ',.<prec>f')] when [comma]. *)
Definition format_f (comma : bool) (prec : nat) (x : float) : string :=
  match Prim2SF x with
  | S754_nan => "nan"
  | S754_infinity s => if s then "-inf" else "inf"
  | S754_zero s => fixed comma prec s 0
  | S754_finite s m e => fixed comma prec s (scaled prec m e)
  end.

End PyFloat.

(** ** Python strings *)

Module PyStr.

Definition lower_ascii (c : ascii) : ascii :=
  let n := nat_of_ascii c in
  if (Nat.leb 65 n && Nat.leb n 90)%bool then ascii_of_nat (n + 32) else c.

Definition upper_ascii (c : ascii) : ascii :=
  let n := nat_of_ascii c in
  if (Nat.leb 97 n && Nat.leb n 122)%bool then ascii_of_nat (n - 32) else c.

Fixpoint map_string (f : ascii -> ascii) (s : string) : string :=
  match s with
  | EmptyString => EmptyString
  | String c rest => String (f c) (map_string f rest)
  end.

(** [s.lower()]: the letters [A]-[Z] change case, every other byte is
    kept.  (The one other character whose lower case is made of ASCII
    letters is the Kelvin sign, which becomes [k]; no literal the code
    compares with holds a [k].) *)
Definition lower : string -> string := map_string lower_ascii.

Definition byte (n : nat) (c : ascii) : bool := Nat.eqb (nat_of_ascii c) n.

(** The characters of two and of three UTF-8 bytes whose upper case is
    made of ASCII letters, with that upper case: the sharp s, the dotless
    i and the long s; the ligatures ff, fi, fl, ffi, ffl and the two st. *)
Definition upper2 (c1 c2 : ascii) : option string :=
  if (byte 195 c1 && byte 159 c2)%bool then Some "SS"
  else if (byte 196 c1 && byte 177 c2)%bool then Some "I"
  else if (byte 197 c1 && byte 191 c2)%bool then Some "S"
  else None.

Definition upper3 (c1 c2 c3 : ascii) : option string :=
  if (byte 239 c1 && byte 172 c2)%bool
  then if byte 128 c3 then Some "FF"
       else if byte 129 c3 then Some "FI"
       else if byte 130 c3 then Some "FL"
       else if byte 131 c3 then Some "FFI"
       else if byte 132 c3 then Some "FFL"
       else if byte 133 c3 then Some "ST"
       else if byte 134 c3 then Some "ST"
       else None
  else None.

(** [s.upper()]: the letters [a]-[z] change case, the characters above
    are replaced by their upper case, every other byte is kept (the upper
    case of any other character holds a character that is not ASCII). *)
Fixpoint upper (s : string) : string :=
  match s with
  | EmptyString => EmptyString
  | String c1 r1 =>
      match r1 with
      | EmptyString => String (upper_ascii c1) EmptyString
      | String c2 r2 =>
          match upper2 c1 c2 with
          | Some image => image +:+ upper r2
          | None =>
              match r2 with
              | EmptyString => String (upper_ascii c1) (upper r1)
              | String c3 r3 =>
                  match upper3 c1 c2 c3 with
                  | Some image => image +:+ upper r3
                  | None => String (upper_ascii c1) (upper r1)
                  end
              end
          end
      end
  end.

(** A string of ASCII characters only. *)
Definition is_ascii_char (c : ascii) : bool := Nat.ltb (nat_of_ascii c) 128.

Fixpoint is_ascii (s : string) : bool :=
  match s with
  | EmptyString => true
  | String c rest => (is_ascii_char c && is_ascii rest)%bool
  end.

(** [s in l] for a list of strings. *)
Definition mem (s : string) (l : list string) : bool :=
  existsb (String.eqb s) l.


End PyStr.

(** ** Exceptions and JSON fields *)

(** The result of a block that may raise. *)
Inductive exn (A : Type) : Type :=
| Val (a : A)
| Exc.
Arguments Val {A} a.
Arguments Exc {A}.

#[global] Instance exn_ret : MRet exn := fun _ a => Val a.
#[global] Instance exn_bind : MBind exn := fun _ _ k c =>
  match c with
  | Val a => k a
  | Exc => Exc
  end.

(** An entry of a JSON object as the code reads it with [d.get(key, default)]:
    the key is absent, or holds a value of the type the code goes on to use,
    or holds a value on which the next operation of the code raises (a string
    where a number is compared, a list where a hashable key is needed, text
    that [float()] rejects, a number given to [len()] or [.lower()]). *)
Inductive field (A : Type) : Type :=
| Absent
| Present (a : A)
| Bad.
Arguments Absent {A}.
Arguments Present {A} a.
Arguments Bad {A}.

(** [d.get(key, default)] followed by the operation that needs the type. *)
Definition get_or {A : Type} (default : A) (f : field A) : exn A :=
  match f with
  | Absent => Val default
  | Present a => Val a
  | Bad => Exc
  end.

(** One element of the [recentTrades] payload. *)
Record trade : Type := Trade {
  tr_time : field Z;                (* 'time': milliseconds since the epoch *)
  tr_hash : field string;           (* 'hash' *)
  tr_sz : field float;              (* 'sz', as [float()] converts it *)
  tr_px : field float;              (* 'px', as [float()] converts it *)
  tr_side : field string;           (* 'side' *)
  tr_users : field (list string)    (* 'users' *)
}.

(** An element of the payload is a JSON object, or a value without [.get]. *)
Inductive entry : Type :=
| NotDict
| Dict (t : trade).

(** What the [recentTrades] request returned. *)
Inductive response : Type :=
| RequestFailed               (* [urlopen] or [json.loads] raised *)
| Scalar (truthy : bool)      (* a JSON value that is not an array *)
| Items (trades : list entry).

(** What the [meta] request returned: the names of the [universe] entry
    ([None] for an asset without a ['name'] key), when the request worked
    and the payload has a ['universe'] key. *)
Inductive meta_response (name : Type) : Type :=
| MetaFailed                  (* the request, the decoding or the reading of the payload raised *)
| MetaNoUniverse              (* falsy payload, or no 'universe' key *)
| MetaUniverse (assets : list (option name)).
Arguments MetaFailed {name}.
Arguments MetaNoUniverse {name}.
Arguments MetaUniverse {name} assets.

(** [[asset['name'] for asset in universe if 'name' in asset]]. *)
Definition names {name : Type} (assets : list (option name)) : list name :=
  omap id assets.

(** ** bot_final_liquidations.py *)

Module Final.

(** [HyperliquidLiquidationsBot]: the fields the scan reads and writes. *)
Record bot : Type := Bot {
  min_liquidation_value : Z;
  liquidations_count : nat;
  processed_hashes : gset string
}.

(** [HyperliquidLiquidationsBot.__init__], with the resolved
    [Config.MIN_LIQUIDATION_VALUE]. *)
Definition init (min_value : Z) : bot :=
  {| min_liquidation_value := min_value;
     liquidations_count := 0;
     processed_hashes := ∅ |}.

(** The dictionary [analyze_coin_liquidations] builds for a liquidation.
    [side] is [None] when the trade's ['side'] is not a string. *)
Record liquidation : Type := Liquidation {
  coin : string;
  sz : float;
  px : float;
  side : option string;
  value_usd : float;
  time : Z;
  hash : string;
  users : list string
}.

Definition fallback_coins : list string :=
  ["BTC"; "ETH"; "SOL"; "AVAX"; "DOGE"]%string.

(** [get_all_coins]. *)
Definition get_all_coins (r : meta_response string) : list string :=
  match r with
  | MetaUniverse assets => take 50 (names assets)
  | MetaNoUniverse => fallback_coins
  | MetaFailed => fallback_coins
  end.

(** Criterion 2 of [analyze_coin_liquidations]: the size tier of the coin. *)
Definition size_tier (coin : string) (sz : float) : bool :=
  if String.eqb coin "BTC" then PyFloat.ge sz 2
  else if String.eqb coin "ETH" then PyFloat.ge sz 20
  else if PyStr.mem coin ["SOL"; "AVAX"; "MATIC"; "DOT"; "LINK"]%string
       then PyFloat.ge sz 1000
  else if PyStr.mem coin ["DOGE"; "XRP"; "ADA"]%string
       then PyFloat.ge sz 50000
  else PyFloat.ge sz 5000.

(** The body of the inner [try] of [analyze_coin_liquidations] for one
    element of the payload: [Val None] is a [continue] or a trade that is
    no liquidation, [Val (Some l)] the liquidation appended, [Exc] an
    exception (the handler is a [continue]). *)
Definition classify (b : bot) (coin : string) (five_minutes_ago : float)
    (e : entry) : exn (option liquidation) :=
  match e with
  | NotDict => Exc
  | Dict t =>
      trade_hash ← get_or ""%string (tr_hash t);
      if bool_decide (trade_hash ∈ processed_hashes b) then Val None else
      trade_time ← get_or 0 (tr_time t);
      if PyFloat.int_lt trade_time five_minutes_ago then Val None else
      sz ← get_or 0%float (tr_sz t);
      px ← get_or 0%float (tr_px t);
      let side := match tr_side t with
                  | Absent => Some ""%string
                  | Present s => Some s
                  | Bad => None
                  end in
      let value_usd := (sz * px)%float in
      if PyFloat.lt_int value_usd (min_liquidation_value b) then Val None else
      let is_liquidation := size_tier coin sz in
      users ← get_or [] (tr_users t);
      let is_liquidation :=
        if (2 <=? length users)%nat then true else is_liquidation in
      let is_liquidation :=
        if PyFloat.ge_int value_usd 100000 then true else is_liquidation in
      if is_liquidation
      then Val (Some {| coin := coin; sz := sz; px := px; side := side;
                        value_usd := value_usd; time := trade_time;
                        hash := trade_hash; users := users |})
      else Val None
  end.

(** [self.processed_hashes.add(trade_hash)]. *)
Definition mark (h : string) (b : bot) : bot :=
  {| min_liquidation_value := min_liquidation_value b;
     liquidations_count := liquidations_count b;
     processed_hashes := {[ h ]} ∪ processed_hashes b |}.

(** The [for trade in trades] loop. *)
Fixpoint scan_trades (b : bot) (coin : string) (five_minutes_ago : float)
    (trades : list entry) : bot * list liquidation :=
  match trades with
  | [] => (b, [])
  | e :: rest =>
      match classify b coin five_minutes_ago e with
      | Val (Some l) =>
          let '(b', out) := scan_trades (mark (hash l) b) coin five_minutes_ago rest in
          (b', l :: out)
      | Val None => scan_trades b coin five_minutes_ago rest
      | Exc => scan_trades b coin five_minutes_ago rest
      end
  end.

(** [analyze_coin_liquidations(coin)]; [current_time] is
    [time.time() * 1000] and [r] the outcome of the request. *)
Definition analyze_coin_liquidations (b : bot) (coin : string)
    (current_time : float) (r : response) : bot * list liquidation :=
  match r with
  | RequestFailed => (b, [])
  | Scalar false => (b, [])
  | Scalar true => (b, [])
  | Items [] => (b, [])
  | Items trades =>
      scan_trades b coin (current_time - 300000)%float trades
  end.

Definition short_sides : list string := ["sell"; "short"; "s"]%string.

(** The direction and its marker in [send_liquidation_alert]. *)
Definition direction (side : string) : string :=
  if PyStr.mem (PyStr.lower side) short_sides then "SHORT" else "LONG".

Definition point (side : string) : string :=
  if PyStr.mem (PyStr.lower side) short_sides then "🟢" else "🔴".

(** The number and suffix of the amount, without the currency sign. *)
Definition magnitude (value_usd : float) : string :=
  if PyFloat.ge_int value_usd 1000000
  then PyFloat.format_f false 1 (value_usd / 1000000)%float +:+ "M"
  else if PyFloat.ge_int value_usd 1000
  then PyFloat.format_f false 0 (value_usd / 1000)%float +:+ "K"
  else PyFloat.format_f false 0 value_usd.

Definition amount_str (value_usd : float) : string :=
  "$" +:+ magnitude value_usd.

Definition price_str (px : float) : string :=
  "$" +:+ PyFloat.format_f false 4 px.

(** The message of [send_liquidation_alert]; [Exc] when building it raises. *)
Definition alert_message (l : liquidation) : exn string :=
  side ← (match side l with Some s => Val s | None => Exc end);
  let users_count := length (users l) in
  let confidence :=
    if ((2 <=? users_count)%nat || PyFloat.ge_int (value_usd l) 100000)%bool
    then "🚨" else "⚠️" in
  Val (confidence +:+ " " +:+ point side +:+ " #" +:+ coin l +:+ " "
       +:+ direction side +:+ " " +:+ amount_str (value_usd l)
       +:+ " @" +:+ price_str (px l)).

(** [send_liquidation_alert(liquidation)]: the counter is incremented, and
    the message, when it can be built, is handed to
    [telegram_bot.send_message]. *)
Definition send_liquidation_alert (b : bot) (l : liquidation)
    : bot * option string :=
  let b' := {| min_liquidation_value := min_liquidation_value b;
               liquidations_count := S (liquidations_count b);
               processed_hashes := processed_hashes b |} in
  match alert_message l with
  | Val message => (b', Some message)
  | Exc => (b', None)
  end.

(** One request of a scan: the coin, the clock at the call and the outcome. *)
Definition job : Type := string * (float * response).

(** A message handed to the Telegram client, with the liquidation it reports. *)
Definition dispatch : Type := liquidation * string.

(** [asyncio.gather] over the batch.  [analyze_coin_liquidations] has no
    suspension point, so the tasks run one after the other, in order. *)
Fixpoint gather (b : bot) (batch : list job) : bot * list (list liquidation) :=
  match batch with
  | [] => (b, [])
  | (coin, (now, r)) :: rest =>
      let '(b1, result) := analyze_coin_liquidations b coin now r in
      let '(b2, results) := gather b1 rest in
      (b2, result :: results)
  end.

(** The loops over [results] and over each [result]. *)
Fixpoint send_all (b : bot) (ls : list liquidation) : bot * list dispatch :=
  match ls with
  | [] => (b, [])
  | l :: rest =>
      let '(b1, sent) := send_liquidation_alert b l in
      let '(b2, out) := send_all b1 rest in
      (b2, match sent with Some m => (l, m) :: out | None => out end)
  end.

Definition process_batch (b : bot) (batch : list job) : bot * list dispatch :=
  let '(b1, results) := gather b batch in
  send_all b1 (concat results).

Definition batch_size : nat := 10.

(** [[coins[i:i+batch_size] for i in range(0, len(coins), batch_size)]]. *)
Definition batches {A : Type} (l : list A) : list (list A) :=
  map (fun k => take batch_size (drop (k * batch_size) l))
      (seq 0 (Nat.div (length l + (batch_size - 1)) batch_size)).

Fixpoint process_batches (b : bot) (bs : list (list job)) : bot * list dispatch :=
  match bs with
  | [] => (b, [])
  | batch :: rest =>
      let '(b1, sent) := process_batch b batch in
      let '(b2, out) := process_batches b1 rest in
      (b2, sent ++ out)
  end.

(** The inputs of one iteration of the [while self.running] loop: the
    outcome of the [meta] request, and for the [i]-th coin of the scan the
    clock and the outcome of its [recentTrades] request. *)
Record cycle : Type := Cycle {
  meta : meta_response string;
  feed : nat -> float * response
}.

Definition jobs (c : cycle) : list job :=
  imap (fun i coin => (coin, feed c i)) (get_all_coins (meta c)).

(** One iteration of the loop of [monitor_liquidations]. *)
Definition scan (b : bot) (c : cycle) : bot * list dispatch :=
  process_batches b (batches (jobs c)).

(** [monitor_liquidations], for as many iterations as [cycles] has inputs. *)
Fixpoint monitor_liquidations (b : bot) (cycles : list cycle)
    : bot * list dispatch :=
  match cycles with
  | [] => (b, [])
  | c :: rest =>
      let '(b1, sent) := scan b c in
      let '(b2, out) := monitor_liquidations b1 rest in
      (b2, sent ++ out)
  end.

End Final.

(** ** bot_railway.py *)

Module Railway.

(** The dictionary [identify_liquidations] builds.  ['sz'] and ['px'] are
    stored as [str(sz)] and [str(px)] and read back with [float()], which
    returns the float that was printed. *)
Record liquidation : Type := Liquidation {
  coin : string;
  sz : float;
  px : float;
  side : option string;
  time : Z
}.

(** The thresholds of [identify_liquidations]. *)
Definition is_significant (coin : string) (sz value_usd : float) : bool :=
  if PyStr.mem coin ["BTC"; "ETH"]%string
  then PyFloat.gt sz 0x1.999999999999ap-4 && PyFloat.gt_int value_usd 5000
  else if PyStr.mem coin ["SOL"; "AVAX"; "ADA"; "DOT"; "LINK"; "UNI";
                          "ATOM"; "NEAR"; "FTM"]%string
  then PyFloat.gt sz 5 && PyFloat.gt_int value_usd 1000
  else if PyStr.mem coin ["MATIC"; "XRP"; "LTC"; "BCH"; "AAVE"; "COMP";
                          "MKR"; "ALGO"; "FIL"; "VET"]%string
  then PyFloat.gt sz 10 && PyFloat.gt_int value_usd 800
  else if PyStr.mem coin ["DOGE"; "SHIB"; "PEPE"; "FLOKI"; "BONK"; "WIF";
                          "BOME"]%string
  then PyFloat.gt sz 1000 && PyFloat.gt_int value_usd 500
  else PyFloat.gt sz 20 && PyFloat.gt_int value_usd 500.

(** The body of the [try] of [identify_liquidations] for one trade. *)
Definition classify (coin : string) (one_hour_ago : float) (e : entry)
    : exn (option liquidation) :=
  match e with
  | NotDict => Exc
  | Dict t =>
      trade_time ← get_or 0 (tr_time t);
      if PyFloat.int_lt trade_time one_hour_ago then Val None else
      sz ← get_or 0%float (tr_sz t);
      px ← get_or 0%float (tr_px t);
      let side := match tr_side t with
                  | Absent => Some ""%string
                  | Present s => Some s
                  | Bad => None
                  end in
      let value_usd := (sz * px)%float in
      if is_significant coin sz value_usd
      then Val (Some {| coin := coin; sz := sz; px := px; side := side;
                        time := trade_time |})
      else Val None
  end.

Fixpoint scan_trades (coin : string) (one_hour_ago : float)
    (trades : list entry) : list liquidation :=
  match trades with
  | [] => []
  | e :: rest =>
      match classify coin one_hour_ago e with
      | Val (Some l) => l :: scan_trades coin one_hour_ago rest
      | Val None => scan_trades coin one_hour_ago rest
      | Exc => scan_trades coin one_hour_ago rest
      end
  end.

(** [identify_liquidations(trades, coin)], with [trades] what
    [get_recent_trades] returned ([None] after a failed request) and
    [current_time] the value of [datetime.now().timestamp() * 1000]. *)
Definition identify_liquidations (current_time : float) (r : response)
    (coin : string) : list liquidation :=
  match r with
  | RequestFailed => []
  | Scalar _ => []
  | Items trades => scan_trades coin (current_time - 3600000)%float trades
  end.

Definition short_sides : list string := ["sell"; "short"]%string.

Definition direction (side : string) : string :=
  if PyStr.mem (PyStr.lower (PyStr.upper side)) short_sides
  then "SHORT" else "LONG".

Definition point (side : string) : string :=
  if PyStr.mem (PyStr.lower (PyStr.upper side)) short_sides
  then "🔴" else "🟢".

(** The amount of [send_liquidation], without the currency sign. *)
Definition magnitude (value_usd : float) : string :=
  PyFloat.format_f true 0 value_usd.

(** The message of [send_liquidation]; [Exc] when building it raises. *)
Definition message (l : liquidation) : exn string :=
  side ← (match side l with Some s => Val s | None => Exc end);
  let value_usd := (sz l * px l)%float in
  Val (point side +:+ " #" +:+ coin l +:+ " " +:+ direction side
       +:+ " $" +:+ magnitude value_usd
       +:+ " @$" +:+ PyFloat.format_f false 2 (px l)).

(** [send_liquidation(liq)]: the message handed to the Telegram client. *)
Definition send_liquidation (l : liquidation) : option string :=
  match message l with
  | Val m => Some m
  | Exc => None
  end.

(** The [for liq in liquidations] loop of [monitor_liquidations]: the
    value gate, then [send_liquidation]. *)
Fixpoint send_large (min_liquidation_value : Z) (ls : list liquidation)
    : list (liquidation * string) :=
  match ls with
  | [] => []
  | l :: rest =>
      let value := (sz l * px l)%float in
      let out := send_large min_liquidation_value rest in
      if PyFloat.ge_int value min_liquidation_value
      then match send_liquidation l with
           | Some m => (l, m) :: out
           | None => out
           end
      else out
  end.

(** The body of [for coin in current_batch]. *)
Definition process_coin (min_liquidation_value : Z) (coin : string)
    (current_time : float) (r : response) : list (liquidation * string) :=
  send_large min_liquidation_value (identify_liquidations current_time r coin).

(** The list [coins_to_check] of [monitor_liquidations]. *)
Definition coins_to_check : list string :=
  ["BTC"; "ETH"; "SOL"; "AVAX"; "MATIC"; "DOT"; "LINK"; "UNI";
   "ASTER"; "ADA"; "XRP"; "DOGE"; "SHIB"; "LTC"; "BCH"; "ETC";
   "AAVE"; "COMP"; "MKR"; "SNX"; "CRV"; "SUSHI"; "YFI"; "1INCH";
   "ATOM"; "NEAR"; "FTM"; "ALGO"; "EGLD"; "FLOW"; "ICP"; "TEZOS";
   "AXS"; "SAND"; "MANA"; "ENJ"; "GALA"; "IMX"; "THETA"; "CHZ";
   "FIL"; "VET"; "TRX"; "EOS"; "XLM"; "HBAR"; "IOTA"; "NEO";
   "PEPE"; "FLOKI"; "BONK"; "WIF"; "BOME"]%string.

Definition batch_size : nat := 6.

(** [start_idx] and [end_idx] of the scan numbered [check_count] (the
    counter is incremented before it is used: the first scan has number 1). *)
Definition start_idx (check_count : nat) : nat :=
  ((check_count - 1) * batch_size) mod length coins_to_check.

Definition end_idx (check_count : nat) : nat :=
  Nat.min (start_idx check_count + batch_size) (length coins_to_check).

(** [coins_to_check[start_idx:end_idx]]. *)
Definition current_batch (check_count : nat) : list string :=
  take (end_idx check_count - start_idx check_count)
       (drop (start_idx check_count) coins_to_check).

(** One iteration of the loop of [monitor_liquidations]: [feed i] is the
    clock and the outcome of the request for the [i]-th coin of the batch. *)
Definition scan (min_liquidation_value : Z) (check_count : nat)
    (feed : nat -> float * response) : list (liquidation * string) :=
  concat (imap (fun i coin =>
                  process_coin min_liquidation_value coin (feed i).1 (feed i).2)
               (current_batch check_count)).

End Railway.

(** ** bot_railway_futures.py *)

Module Futures.

(** A ['name'] of the universe: a string, or a value that cannot be a
    member of a set. *)
Inductive token : Type :=
| Name (s : string)
| Unhashable.

(** [HyperliquidFuturesBot]: the token cache and the time of its last
    update. *)
Record bot : Type := Bot {
  all_tokens : gset string;
  last_token_update : float
}.

Definition init : bot :=
  {| all_tokens := ∅; last_token_update := 0 |}.

(** [get_all_tradable_assets]. *)
Definition get_all_tradable_assets (r : meta_response token) : list token :=
  match r with
  | MetaUniverse assets => names assets
  | MetaNoUniverse => []
  | MetaFailed => []
  end.

(** [s.update(tokens)]: the elements are added in order; an unhashable
    one raises, and the elements added before it stay. *)
Fixpoint update (s : gset string) (tokens : list token)
    : gset string * exn unit :=
  match tokens with
  | [] => (s, Val tt)
  | Name n :: rest => update ({[ n ]} ∪ s) rest
  | Unhashable :: _ => (s, Exc)
  end.

Definition fallback_tokens : list string := ["BTC"; "ETH"; "SOL"]%string.

(** The hourly refresh of [get_recent_trades_all_tokens]. *)
Definition refresh (b : bot) (current_time : float)
    (r : meta_response token) : bot * exn unit :=
  if PyFloat.gt (current_time - last_token_update b) 3600
  then match get_all_tradable_assets r with
       | [] => (b, Val tt)
       | new_tokens =>
           let '(s, e) := update (all_tokens b) new_tokens in
           match e with
           | Val _ => ({| all_tokens := s; last_token_update := current_time |}, Val tt)
           | Exc => ({| all_tokens := s; last_token_update := last_token_update b |}, Exc)
           end
       end
  else (b, Val tt).

(** The second request, made when the cache is empty. *)
Definition fill_empty (b : bot) (r : meta_response token) : bot * exn unit :=
  if bool_decide (all_tokens b = ∅)
  then let '(s, e) := update (all_tokens b) (get_all_tradable_assets r) in
       ({| all_tokens := s; last_token_update := last_token_update b |}, e)
  else (b, Val tt).

(** [get_recent_trades_all_tokens]; [r1] and [r2] are the outcomes of the
    [meta] requests of the refresh and of the empty-cache branch. *)
Definition get_recent_trades_all_tokens (b : bot) (current_time : float)
    (r1 r2 : meta_response token) : bot * list string :=
  let '(b1, e1) := refresh b current_time r1 in
  match e1 with
  | Exc => (b1, fallback_tokens)
  | Val _ =>
      let '(b2, e2) := fill_empty b1 r2 in
      match e2 with
      | Exc => (b2, fallback_tokens)
      | Val _ => (b2, elements (all_tokens b2))
      end
  end.

(** [monitor_all_futures_liquidations]: the token lists the scans obtain,
    one per iteration of the loop. *)
Fixpoint token_lists (b : bot)
    (cycles : list (float * (meta_response token * meta_response token)))
    : bot * list (list string) :=
  match cycles with
  | [] => (b, [])
  | (now, (r1, r2)) :: rest =>
      let '(b1, l) := get_recent_trades_all_tokens b now r1 r2 in
      let '(b2, ls) := token_lists b1 rest in
      (b2, l :: ls)
  end.

(** The dictionary [get_futures_liquidations] builds. *)
Record liquidation : Type := Liquidation {
  coin : string;
  sz : float;
  px : float;
  side : option string;
  time : Z;
  value_usd : float
}.

Definition short_sides : list string := ["sell"; "short"]%string.

Definition direction (side : string) : string :=
  if PyStr.mem (PyStr.lower (PyStr.upper side)) short_sides
  then "SHORT" else "LONG".

Definition point (side : string) : string :=
  if PyStr.mem (PyStr.lower (PyStr.upper side)) short_sides
  then "🟢" else "🔴".

(** The number and suffix of the amount, without the currency sign. *)
Definition magnitude (value_usd : float) : string :=
  if PyFloat.ge_int value_usd 1000000
  then PyFloat.format_f false 1 (value_usd / 1000000)%float +:+ "M"
  else if PyFloat.ge_int value_usd 1000
  then PyFloat.format_f false 0 (value_usd / 1000)%float +:+ "K"
  else PyFloat.format_f false 0 value_usd.

Definition amount_str (value_usd : float) : string :=
  "$" +:+ magnitude value_usd.

(** The message of [send_liquidation_alert]; [Exc] when building it raises. *)
Definition alert_message (l : liquidation) : exn string :=
  side ← (match side l with Some s => Val s | None => Exc end);
  Val (point side +:+ " #" +:+ coin l +:+ " " +:+ direction side
       +:+ " " +:+ amount_str (value_usd l)
       +:+ " @$" +:+ PyFloat.format_f false 4 (px l)).

(** The thresholds of [get_futures_liquidations]. *)
Definition is_liquidation (token : string) (sz value_usd : float) : bool :=
  if PyStr.mem token ["BTC"; "ETH"]%string
  then PyFloat.gt sz 0.5 && PyFloat.gt_int value_usd 10000
  else if PyFloat.gt_int value_usd 5000 then true else false.

(** The body of the [try] of [get_futures_liquidations] for one trade. *)
Definition classify (min_liquidation_value : Z) (token : string)
    (ten_minutes_ago : float) (e : entry) : exn (option liquidation) :=
  match e with
  | NotDict => Exc
  | Dict t =>
      trade_time ← get_or 0 (tr_time t);
      if PyFloat.int_lt trade_time ten_minutes_ago then Val None else
      sz ← get_or 0%float (tr_sz t);
      px ← get_or 0%float (tr_px t);
      let side := match tr_side t with
                  | Absent => Some ""%string
                  | Present s => Some s
                  | Bad => None
                  end in
      let value_usd := (sz * px)%float in
      if is_liquidation token sz value_usd
         && PyFloat.ge_int value_usd min_liquidation_value
      then Val (Some {| coin := token; sz := sz; px := px; side := side;
                        time := trade_time; value_usd := value_usd |})
      else Val None
  end.

Fixpoint scan_trades (min_liquidation_value : Z) (token : string)
    (ten_minutes_ago : float) (trades : list entry) : list liquidation :=
  match trades with
  | [] => []
  | e :: rest =>
      match classify min_liquidation_value token ten_minutes_ago e with
      | Val (Some l) =>
          l :: scan_trades min_liquidation_value token ten_minutes_ago rest
      | Val None => scan_trades min_liquidation_value token ten_minutes_ago rest
      | Exc => scan_trades min_liquidation_value token ten_minutes_ago rest
      end
  end.

(** [get_futures_liquidations(token)]; [current_time] is
    [datetime.now().timestamp() * 1000]. *)
Definition get_futures_liquidations (min_liquidation_value : Z)
    (token : string) (current_time : float) (r : response) : list liquidation :=
  match r with
  | RequestFailed => []
  | Scalar _ => []
  | Items trades =>
      scan_trades min_liquidation_value token (current_time - 600000)%float trades
  end.

(** [process_token_liquidations(token)]: the messages handed to the
    Telegram client, with the liquidations they report. *)
Fixpoint send_alerts (ls : list liquidation) : list (liquidation * string) :=
  match ls with
  | [] => []
  | l :: rest =>
      match alert_message l with
      | Val m => (l, m) :: send_alerts rest
      | Exc => send_alerts rest
      end
  end.

Definition process_token_liquidations (min_liquidation_value : Z)
    (token : string) (current_time : float) (r : response)
    : list (liquidation * string) :=
  send_alerts (get_futures_liquidations min_liquidation_value token current_time r).

End Futures.

(** ** TelegramBot *)

Module Telegram.

(** [TelegramBot]: the interval between messages (1, 2 or 3 seconds in the
    three files), the counter and the time of the last message sent. *)
Record client : Type := Client {
  min_interval : Z;
  messages_sent : nat;
  last_message_time : float
}.

Definition init (interval : Z) : client :=
  {| min_interval := interval; messages_sent := 0; last_message_time := 0 |}.

(** What the [sendMessage] request gave: an exception (in the request, the
    decoding or the reading of the reply), or a reply whose ['ok'] entry is
    true or not. *)
Inductive reply : Type :=
| SendRaised
| Replied (ok : bool).

(** The test [time_since_last < self.min_interval] that makes
    [send_message] sleep. *)
Definition waits (c : client) (current_time : float) : bool :=
  PyFloat.lt_int (current_time - last_message_time c)%float (min_interval c).

(** [send_message(text)]: [sent_at] is the clock read after the reply. *)
Definition send_message (c : client) (r : reply) (sent_at : float)
    : client * bool :=
  match r with
  | Replied true =>
      ({| min_interval := min_interval c;
          messages_sent := S (messages_sent c);
          last_message_time := sent_at |}, true)
  | Replied false => (c, false)
  | SendRaised => (c, false)
  end.

(** A sequence of calls of [send_message]. *)
Fixpoint send_messages (c : client) (calls : list (reply * float))
    : client * list bool :=
  match calls with
  | [] => (c, [])
  | (r, sent_at) :: rest =>
      let '(c1, ok) := send_message c r sent_at in
      let '(c2, oks) := send_messages c1 rest in
      (c2, ok :: oks)
  end.

End Telegram.


(** * Vocabulary of the properties *)


(** The trade of the scenario: 3.0 BTC sold at 60000, no counterparty. *)
Definition btc_trade (time : Z) (hash : string) : trade :=
  {| tr_time := Present time; tr_hash := Present hash;
     tr_sz := Present 3%float; tr_px := Present 60000%float;
     tr_side := Present "Sell"%string; tr_users := Present [] |}.


(** A trade of 3.0 BTC at 60000 that carries no hash. *)
Definition hashless_trade (time : Z) : trade :=
  {| tr_time := Present time; tr_hash := Absent;
     tr_sz := Present 3%float; tr_px := Present 60000%float;
     tr_side := Present "B"%string; tr_users := Present [] |}.

Definition hashless_liquidation : Final.liquidation :=
  {| Final.coin := "BTC"; Final.sz := 3; Final.px := 60000;
     Final.side := Some "B"%string; Final.value_usd := 180000;
     Final.time := 1699999990000; Final.hash := "";
     Final.users := [] |}.

(** A recent trade of 0.5 BTC at 30000: a notional of 15000. *)
Definition low_trade : trade :=
  {| tr_time := Present 1699999990000; tr_hash := Present "0xdef"%string;
     tr_sz := Present 0.5%float; tr_px := Present 30000%float;
     tr_side := Present "B"%string; tr_users := Present [] |}.

(** A recent trade of 1.0 BTC at 60000 between two users: its notional of
    60000 passes a minimum of 50000, its size is under the tier of 2 BTC
    and its notional under 100000. *)
Definition two_party_trade (hash : string) : trade :=
  {| tr_time := Present 1699999990000; tr_hash := Present hash;
     tr_sz := Present 1%float; tr_px := Present 60000%float;
     tr_side := Present "B"%string;
     tr_users := Present ["0x01"; "0x02"]%string |}.


(** The notional of a trade, when [float()] converts its size and price. *)
Definition notional (t : trade) : exn float :=
  sz ← get_or 0%float (tr_sz t);
  px ← get_or 0%float (tr_px t);
  Val (sz * px)%float.

(** A run from the seen set [S] that emits the identifiers [hs] and ends
    with the seen set [S']: the identifiers are distinct, none was seen
    before, and all are seen afterwards. *)
Definition fresh_run (S : gset string) (hs : list string) (S' : gset string) : Prop :=
  NoDup hs /\ (forall h, h ∈ hs -> h ∉ S) /\ S' = list_to_set hs ∪ S.

(** The configured minimum is never written. *)
Definition same_config (b b' : Final.bot) : Prop :=
  Final.min_liquidation_value b' = Final.min_liquidation_value b.

(** A run of the bot from [b]: the alerts it sends report distinct
    identifiers that were not seen in [b]. *)
Definition dedup_run (b : Final.bot) (res : Final.bot * list Final.dispatch) : Prop :=
  exists hs, fresh_run (Final.processed_hashes b) hs (Final.processed_hashes res.1)
    /\ ((fun d => Final.hash d.1) <$> res.2) `sublist_of` hs
    /\ same_config b res.1.

(** * Properties *)

(** ** The batches of a scan *)

(** Twenty-five coins are scanned in batches of ten, ten and five. *)
Example batches_25 :
  Final.batches (seq 0 25) = [seq 0 10; seq 10 10; seq 20 5].
Proof. reflexivity. Qed.

Example batches_empty : Final.batches (@nil nat) = [].
Proof. reflexivity. Qed.

(** ** Strings: case-insensitive comparison *)

Section Case.

Lemma lower_upper_ascii (c : ascii) :
  PyStr.lower_ascii (PyStr.upper_ascii c) = PyStr.lower_ascii c.
Proof. destruct c as [[] [] [] [] [] [] [] []]; reflexivity. Qed.

(** On an ASCII character [upper] does what [upper_ascii] does. *)
Lemma upper_plain (c : ascii) (rest : string) :
  PyStr.is_ascii_char c = true ->
  PyStr.upper (String c rest) = String (PyStr.upper_ascii c) (PyStr.upper rest).
Proof.
  destruct c as [[] [] [] [] [] [] [] []]; try discriminate; intros _;
    destruct rest as [|c2 [|c3 r3]]; reflexivity.
Qed.

Lemma lower_upper (s : string) :
  PyStr.is_ascii s = true -> PyStr.lower (PyStr.upper s) = PyStr.lower s.
Proof.
  induction s as [|c s IH]; [reflexivity|].
  cbn [PyStr.is_ascii]. intros [Hc Hs]%andb_true_iff.
  rewrite (upper_plain c s Hc). unfold PyStr.lower in *.
  cbn [PyStr.map_string]. now rewrite lower_upper_ascii, (IH Hs).
Qed.






End Case.

(** ** The direction label *)


(** ** The magnitude string *)

Section Magnitude.

(** [round_half_even n d] is an integer nearest to [n / d]. *)
Lemma round_half_even_nearest (n d : Z) :
  0 < d -> 2 * Z.abs (n - PyFloat.round_half_even n d * d) <= d.
Proof.
  intros Hd. unfold PyFloat.round_half_even.
  pose proof (Z.div_mod n d ltac:(lia)) as Hdm.
  pose proof (Z.mod_pos_bound n d Hd) as Hb.
  destruct (Z.compare_spec (2 * (n mod d)) d) as [He|Hl|Hg];
    [destruct (Z.even (n / d))| |]; nia.
Qed.

(** On a tie the even neighbour is taken. *)
Lemma round_half_even_tie (n d : Z) :
  0 < d -> 2 * (n mod d) = d ->
  Z.even (PyFloat.round_half_even n d) = true.
Proof.
  intros Hd He. unfold PyFloat.round_half_even.
  rewrite He, Z.compare_refl.
  destruct (Z.even (n / d)) eqn:E; [exact E|].
  rewrite Z.even_add, E. reflexivity.
Qed.

Lemma final_magnitude_cases (v : float) :
  Final.magnitude v =
    if PyFloat.ge_int v 1000000
    then PyFloat.format_f false 1 (v / 1000000)%float +:+ "M"
    else if PyFloat.ge_int v 1000
    then PyFloat.format_f false 0 (v / 1000)%float +:+ "K"
    else PyFloat.format_f false 0 v.
Proof. reflexivity. Qed.

End Magnitude.

(** C4, refuted for [bot_railway]: its [send_liquidation] prints 1,500,000
    in full, with separators, and not as ["1.5M"]; likewise 45,000. *)
Lemma C4_railway_counterexample :
  Railway.magnitude 1500000 = "1,500,000"%string
  /\ Railway.magnitude 1500000 <> "1.5M"%string
  /\ Railway.magnitude 45000 = "45,000"%string
  /\ Railway.magnitude 45000 <> "45K"%string.
Proof. repeat split; try (vm_compute; reflexivity); vm_compute; discriminate. Qed.

(** C4, as amended.  In [bot_final_liquidations] and in
    [bot_railway_futures] the magnitude of an alert is the value over
    1,000,000 with one decimal and the suffix ["M"] from 1,000,000 on, the
    value over 1,000 rounded to an integer with the suffix ["K"] from 1,000
    on, and the value rounded to an integer below: 1,500,000 gives ["1.5M"],
    45,000 gives ["45K"] and 900 gives ["900"]; the rounding of the
    quotient to an integer takes a nearest one.  In [bot_railway] the
    magnitude is the value rounded to an integer and printed in full with
    thousands separators, whatever its size. *)
Theorem C4_magnitude_string (v : float) :
  Futures.magnitude v = Final.magnitude v
  /\ (PyFloat.ge_int v 1000000 = true ->
      Final.magnitude v = PyFloat.format_f false 1 (v / 1000000)%float +:+ "M")
  /\ (PyFloat.ge_int v 1000000 = false -> PyFloat.ge_int v 1000 = true ->
      Final.magnitude v = PyFloat.format_f false 0 (v / 1000)%float +:+ "K")
  /\ (PyFloat.ge_int v 1000000 = false -> PyFloat.ge_int v 1000 = false ->
      Final.magnitude v = PyFloat.format_f false 0 v)
  /\ Final.magnitude 1500000 = "1.5M"%string
  /\ Final.magnitude 45000 = "45K"%string
  /\ Final.magnitude 900 = "900"%string
  /\ (forall n d : Z, 0 < d ->
      2 * Z.abs (n - PyFloat.round_half_even n d * d) <= d)
  /\ Railway.magnitude v = PyFloat.format_f true 0 v
  /\ Railway.magnitude 900 = "900"%string.
Proof.
  split; [reflexivity|].
  split; [intros H; now rewrite final_magnitude_cases, H|].
  split; [intros H1 H2; now rewrite final_magnitude_cases, H1, H2|].
  split; [intros H1 H2; now rewrite final_magnitude_cases, H1, H2|].
  split; [vm_compute; reflexivity|].
  split; [vm_compute; reflexivity|].
  split; [vm_compute; reflexivity|].
  split; [exact round_half_even_nearest|].
  split; [reflexivity|].
  vm_compute; reflexivity.
Qed.

(** ** The BTC scenario *)

(** C5. A recent trade of 3.0 BTC at 60000, side [Sell], without
    counterparties, scanned by a bot started with a minimum of 50000, is
    emitted as one event (the tier of 2 BTC is met), with side [Sell]; its
    alert carries the direction ["SHORT"], the amount ["$180K"] and the
    price ["$60000.0000"]. *)
Theorem C5_btc_scenario (current_time : float) (time : Z) (hash : string) :
  PyFloat.int_lt time (current_time - 300000)%float = false ->
  exists l : Final.liquidation,
    (Final.analyze_coin_liquidations (Final.init 50000) "BTC" current_time
       (Items [Dict (btc_trade time hash)])).2 = [l]
    /\ Final.size_tier "BTC" (Final.sz l) = true
    /\ Final.side l = Some "Sell"%string
    /\ Final.alert_message l = Val "🚨 🟢 #BTC SHORT $180K @$60000.0000"%string
    /\ Final.direction "Sell" = "SHORT"%string
    /\ Final.amount_str (Final.value_usd l) = "$180K"%string
    /\ Final.price_str (Final.px l) = "$60000.0000"%string.
Proof.
  intros Hrecent.
  eexists. split.
  - unfold Final.analyze_coin_liquidations, Final.scan_trades, Final.classify.
    cbn [btc_trade tr_hash tr_time tr_sz tr_px tr_side tr_users get_or
         mbind exn_bind Final.processed_hashes Final.init
         Final.min_liquidation_value].
    rewrite bool_decide_eq_false_2 by apply not_elem_of_empty.
    rewrite Hrecent.
    vm_compute. reflexivity.
  - repeat split; vm_compute; reflexivity.
Qed.

Lemma C5_btc_scenario_witness :
  exists l : Final.liquidation,
    (Final.analyze_coin_liquidations (Final.init 50000) "BTC" 1700000000000
       (Items [Dict (btc_trade 1699999990000 "0xabc")])).2 = [l]
    /\ Final.size_tier "BTC" (Final.sz l) = true
    /\ Final.side l = Some "Sell"%string
    /\ Final.alert_message l = Val "🚨 🟢 #BTC SHORT $180K @$60000.0000"%string
    /\ Final.direction "Sell" = "SHORT"%string
    /\ Final.amount_str (Final.value_usd l) = "$180K"%string
    /\ Final.price_str (Final.px l) = "$60000.0000"%string.
Proof.
  apply (C5_btc_scenario 1700000000000 1699999990000 "0xabc").
  vm_compute. reflexivity.
Defined.

(** ** The token catalogue of the futures bot *)

Section Catalogue.

Implicit Types (s : gset string) (b : Futures.bot).

Lemma update_grows s (tokens : list Futures.token) :
  s ⊆ (Futures.update s tokens).1.
Proof.
  revert s; induction tokens as [|[n|] rest IH]; intros s; simpl.
  - done.
  - etrans; [|apply IH]. apply union_subseteq_r.
  - done.
Qed.

(** With names that are all strings, [update] is the union with them. *)
Lemma update_union s (l : list string) :
  Futures.update s (Futures.Name <$> l) = (list_to_set l ∪ s, Val tt).
Proof.
  revert s; induction l as [|n l IH]; intros s; simpl.
  - f_equal. apply set_eq. intros x.
    rewrite elem_of_union, elem_of_empty. tauto.
  - rewrite IH. f_equal. apply set_eq. intros x.
    rewrite !elem_of_union, elem_of_singleton. tauto.
Qed.

Lemma refresh_grows b now r :
  Futures.all_tokens b ⊆ Futures.all_tokens (Futures.refresh b now r).1.
Proof.
  unfold Futures.refresh.
  destruct (PyFloat.gt _ _); [|done].
  destruct (Futures.get_all_tradable_assets r) as [|t ts] eqn:E; [done|].
  pose proof (update_grows (Futures.all_tokens b) (t :: ts)) as H.
  destruct (Futures.update _ _) as [s [[]|]]; exact H.
Qed.

Lemma fill_empty_grows b r :
  Futures.all_tokens b ⊆ Futures.all_tokens (Futures.fill_empty b r).1.
Proof.
  unfold Futures.fill_empty. case_bool_decide; [|done].
  pose proof (update_grows (Futures.all_tokens b)
                (Futures.get_all_tradable_assets r)) as Hup.
  destruct (Futures.update _ _) as [s e]; exact Hup.
Qed.

Lemma get_recent_trades_all_tokens_grows b now r1 r2 :
  Futures.all_tokens b
    ⊆ Futures.all_tokens (Futures.get_recent_trades_all_tokens b now r1 r2).1.
Proof.
  unfold Futures.get_recent_trades_all_tokens.
  pose proof (refresh_grows b now r1) as H1.
  destruct (Futures.refresh b now r1) as [b1 [[]|]]; simpl in *; [|done].
  pose proof (fill_empty_grows b1 r2) as H2.
  destruct (Futures.fill_empty b1 r2) as [b2 [[]|]]; simpl in *;
    etrans; eassumption.
Qed.

(** A refresh that is due, with names that are all strings, is the union
    of the cache with the names. *)
Lemma refresh_union b now r (l : list string) :
  PyFloat.gt (now - Futures.last_token_update b) 3600 = true ->
  Futures.get_all_tradable_assets r = Futures.Name <$> l ->
  Futures.refresh b now r
  = ({| Futures.all_tokens := list_to_set l ∪ Futures.all_tokens b;
        Futures.last_token_update :=
          match l with [] => Futures.last_token_update b | _ => now end |},
     Val tt).
Proof.
  intros Hdue Hr. unfold Futures.refresh. rewrite Hdue, Hr.
  pose proof (update_union (Futures.all_tokens b) l) as Hup.
  destruct l as [|n l].
  - cbn [fmap list_fmap list_to_set foldr]. rewrite (left_id_L ∅ (∪)).
    now destruct b.
  - rewrite fmap_cons in *. now rewrite Hup.
Qed.

Lemma refresh_not_due b now r :
  PyFloat.gt (now - Futures.last_token_update b) 3600 = false ->
  Futures.refresh b now r = (b, Val tt).
Proof. intros Hdue. unfold Futures.refresh. now rewrite Hdue. Qed.

Lemma fill_empty_union b r (l : list string) :
  Futures.all_tokens b = ∅ ->
  Futures.get_all_tradable_assets r = Futures.Name <$> l ->
  Futures.fill_empty b r
  = ({| Futures.all_tokens := list_to_set l ∪ Futures.all_tokens b;
        Futures.last_token_update := Futures.last_token_update b |}, Val tt).
Proof.
  intros He Hr. unfold Futures.fill_empty.
  rewrite bool_decide_eq_true_2 by exact He.
  now rewrite Hr, update_union.
Qed.

Lemma fill_empty_full b r :
  Futures.all_tokens b <> ∅ -> Futures.fill_empty b r = (b, Val tt).
Proof.
  intros Hne. unfold Futures.fill_empty.
  now rewrite bool_decide_eq_false_2 by exact Hne.
Qed.

(** The cache one call leaves, when the names the requests give are all
    strings: the names of the refresh are added when it is due, and the
    names of the second request when the cache is then still empty. *)
Lemma get_recent_trades_all_tokens_union b now r1 r2 (l1 l2 : list string) :
  Futures.get_all_tradable_assets r1 = Futures.Name <$> l1 ->
  Futures.get_all_tradable_assets r2 = Futures.Name <$> l2 ->
  let due := PyFloat.gt (now - Futures.last_token_update b) 3600 in
  let s1 := (if due then list_to_set l1 else ∅) ∪ Futures.all_tokens b in
  let s2 := (if bool_decide (s1 = ∅) then list_to_set l2 else ∅) ∪ s1 in
  Futures.get_recent_trades_all_tokens b now r1 r2
  = ({| Futures.all_tokens := s2;
        Futures.last_token_update :=
          if due then match l1 with
                      | [] => Futures.last_token_update b
                      | _ => now
                      end
          else Futures.last_token_update b |},
     elements s2).
Proof.
  intros H1 H2 due s1 s2. unfold Futures.get_recent_trades_all_tokens.
  assert (exists t,
            Futures.refresh b now r1
            = ({| Futures.all_tokens := s1; Futures.last_token_update := t |}, Val tt)
            /\ t = if due then match l1 with
                               | [] => Futures.last_token_update b
                               | _ => now
                               end
                   else Futures.last_token_update b) as (t & -> & Ht).
  { subst s1. destruct due eqn:Hdue; subst due.
    - eexists. split; [apply (refresh_union b now r1 l1 Hdue H1)|reflexivity].
    - eexists. split; [|reflexivity].
      rewrite (refresh_not_due b now r1 Hdue), (left_id_L ∅ (∪)).
      now destruct b. }
  rewrite <- Ht. subst s2. set (b1 := Futures.Bot s1 t).
  case_bool_decide as Hs1.
  - rewrite (fill_empty_union b1 r2 l2 Hs1 H2). reflexivity.
  - rewrite (fill_empty_full b1 r2 Hs1), (left_id_L ∅ (∪)). reflexivity.
Qed.

End Catalogue.

(** C8. The cached token set of the futures bot only grows.  Adding the
    fetched names is a set union; one call of
    [get_recent_trades_all_tokens] leaves a superset of the cache it found,
    and so does any sequence of calls, whatever the requests return.  A
    refresh that is due leaves the union of the cache with the names it
    fetched, and so does the request made on an empty cache; one call
    leaves the cache joined with the names of the refresh, when it is due,
    and with those of the second request, when the cache is then still
    empty, and returns the elements of that set.  On a cache that holds
    [SOL], a refresh that fetches [BTC] and [ETH] leaves the three. *)
Theorem C8_catalog_only_grows (b : Futures.bot)
    (cycles : list (float * (meta_response Futures.token * meta_response Futures.token))) :
  (forall (s : gset string) (l : list string),
      (Futures.update s (Futures.Name <$> l)).1 = list_to_set l ∪ s)
  /\ (forall now r1 r2,
      Futures.all_tokens b
        ⊆ Futures.all_tokens (Futures.get_recent_trades_all_tokens b now r1 r2).1)
  /\ Futures.all_tokens b ⊆ Futures.all_tokens (Futures.token_lists b cycles).1
  /\ (forall now r (l : list string),
      PyFloat.gt (now - Futures.last_token_update b) 3600 = true ->
      Futures.get_all_tradable_assets r = Futures.Name <$> l ->
      Futures.all_tokens (Futures.refresh b now r).1
      = list_to_set l ∪ Futures.all_tokens b)
  /\ (forall r (l : list string),
      Futures.all_tokens b = ∅ ->
      Futures.get_all_tradable_assets r = Futures.Name <$> l ->
      Futures.all_tokens (Futures.fill_empty b r).1
      = list_to_set l ∪ Futures.all_tokens b)
  /\ (forall now r1 r2 (l1 l2 : list string),
      Futures.get_all_tradable_assets r1 = Futures.Name <$> l1 ->
      Futures.get_all_tradable_assets r2 = Futures.Name <$> l2 ->
      let due := PyFloat.gt (now - Futures.last_token_update b) 3600 in
      let s1 := (if due then list_to_set l1 else ∅) ∪ Futures.all_tokens b in
      let s2 := (if bool_decide (s1 = ∅) then list_to_set l2 else ∅) ∪ s1 in
      Futures.all_tokens (Futures.get_recent_trades_all_tokens b now r1 r2).1 = s2
      /\ (Futures.get_recent_trades_all_tokens b now r1 r2).2 = elements s2)
  /\ Futures.all_tokens
       (Futures.refresh
          {| Futures.all_tokens := {[ "SOL"%string ]};
             Futures.last_token_update := 0 |}
          4000
          (MetaUniverse [Some (Futures.Name "BTC"); None;
                         Some (Futures.Name "ETH")])).1
     = list_to_set ["BTC"; "ETH"]%string ∪ {[ "SOL"%string ]}.
Proof.
  split; [|split; [|split; [|split; [|split; [|split]]]]].
  - intros s l. now rewrite update_union.
  - intros. apply get_recent_trades_all_tokens_grows.
  - revert b; induction cycles as [|[now [r1 r2]] rest IH]; intros b; simpl.
    + done.
    + pose proof (get_recent_trades_all_tokens_grows b now r1 r2) as H1.
      destruct (Futures.get_recent_trades_all_tokens b now r1 r2) as [b1 l].
      specialize (IH b1).
      destruct (Futures.token_lists b1 rest) as [b2 ls]. simpl in *.
      etrans; eassumption.
  - intros now r l Hdue Hr. now rewrite (refresh_union b now r l Hdue Hr).
  - intros r l He Hr. now rewrite (fill_empty_union b r l He Hr).
  - intros now r1 r2 l1 l2 H1 H2 due s1 s2.
    now rewrite (get_recent_trades_all_tokens_union b now r1 r2 l1 l2 H1 H2).
  - now rewrite (refresh_union _ 4000 _ ["BTC"; "ETH"]%string).
Qed.

(** ** The symbols handed to the scanner *)

(** C9, evaluated.  When both [meta] requests of
    [get_recent_trades_all_tokens] fail, the futures bot returns its cache
    as it is: on a fresh bot, the empty list.  The hardcoded list of its
    handler is returned when adding the names raises, not when the request
    fails.  In [bot_final_liquidations], [get_all_coins] returns its
    hardcoded list after a failed request or a payload without
    ['universe'], and the empty list for a universe without names. *)
Theorem C9_empty_symbol_list (now : float) :
  Futures.get_recent_trades_all_tokens Futures.init now MetaFailed MetaFailed
    = (Futures.init, [])
  /\ (forall b : Futures.bot,
      Futures.get_recent_trades_all_tokens b now MetaFailed MetaFailed
      = (b, elements (Futures.all_tokens b)))
  /\ (Futures.get_recent_trades_all_tokens Futures.init now
        (MetaUniverse [Some Futures.Unhashable])
        (MetaUniverse [Some Futures.Unhashable])).2
     = Futures.fallback_tokens
  /\ Final.get_all_coins MetaFailed = Final.fallback_coins
  /\ Final.get_all_coins MetaNoUniverse = Final.fallback_coins
  /\ Final.get_all_coins (MetaUniverse []) = []
  /\ Final.get_all_coins (MetaUniverse [None; None]) = [].
Proof.
  split; [|split; [|split]]; [| | |repeat split].
  - unfold Futures.get_recent_trades_all_tokens, Futures.refresh.
    destruct (PyFloat.gt _ _); reflexivity.
  - intros [tokens last].
    unfold Futures.get_recent_trades_all_tokens, Futures.refresh,
      Futures.fill_empty.
    cbn [Futures.get_all_tradable_assets Futures.update Futures.all_tokens
         Futures.last_token_update].
    destruct (PyFloat.gt _ _); case_bool_decide; reflexivity.
  - unfold Futures.get_recent_trades_all_tokens, Futures.refresh.
    destruct (PyFloat.gt _ _); reflexivity.
Qed.

(** ** De-duplication in [bot_final_liquidations] *)

Section Dedup.

Implicit Types (b : Final.bot) (l : Final.liquidation) (S : gset string).

(** What a trade that [classify] emits has passed. *)
Lemma classify_Some b coin fma e l :
  Final.classify b coin fma e = Val (Some l) ->
  exists t, e = Dict t
    /\ get_or ""%string (tr_hash t) = Val (Final.hash l)
    /\ (Final.hash l ∉ Final.processed_hashes b)
    /\ get_or 0 (tr_time t) = Val (Final.time l)
    /\ PyFloat.int_lt (Final.time l) fma = false
    /\ notional t = Val (Final.value_usd l)
    /\ PyFloat.lt_int (Final.value_usd l) (Final.min_liquidation_value b) = false
    /\ Final.coin l = coin.
Proof.
  destruct e as [|t]; [discriminate|].
  unfold Final.classify, notional.
  destruct (get_or ""%string (tr_hash t)) as [h|] eqn:Eh; [|discriminate].
  cbn [mbind exn_bind]. case_bool_decide as Hseen; [discriminate|].
  destruct (get_or 0 (tr_time t)) as [tm|] eqn:Et; [|discriminate].
  cbn [mbind exn_bind].
  destruct (PyFloat.int_lt tm fma) eqn:Hrecent; [discriminate|].
  destruct (get_or 0%float (tr_sz t)) as [sz|] eqn:Es; [|discriminate].
  destruct (get_or 0%float (tr_px t)) as [px|] eqn:Ep; [|discriminate].
  cbn [mbind exn_bind].
  destruct (PyFloat.lt_int _ _) eqn:Hmin; [discriminate|].
  destruct (get_or [] (tr_users t)) as [us|] eqn:Eu; [|discriminate].
  cbn [mbind exn_bind].
  destruct (if PyFloat.ge_int _ _ then true else _); [|discriminate].
  intros [= <-]. exists t. rewrite Es, Ep. cbn. auto 10.
Qed.

Lemma fresh_run_nil S : fresh_run S [] S.
Proof.
  repeat split; [constructor| |].
  - intros h Hh. inversion Hh.
  - apply leibniz_equiv. rewrite list_to_set_nil. now rewrite (left_id ∅ _).
Qed.

Lemma fresh_run_cons S S' h hs :
  h ∉ S -> fresh_run ({[ h ]} ∪ S) hs S' -> fresh_run S (h :: hs) S'.
Proof.
  intros Hh (Hnd & Hfresh & ->). repeat split.
  - apply NoDup_cons. split; [|exact Hnd].
    intros Hin. apply (Hfresh h Hin). apply elem_of_union_l.
    now apply elem_of_singleton.
  - intros x [->|Hx]%elem_of_cons; [exact Hh|].
    intros HxS. apply (Hfresh x Hx). now apply elem_of_union_r.
  - apply leibniz_equiv. rewrite list_to_set_cons.
    rewrite (comm (∪) {[ h ]} (list_to_set hs)).
    now rewrite <- (assoc (∪)).
Qed.

Lemma fresh_run_app S S1 S2 hs1 hs2 :
  fresh_run S hs1 S1 -> fresh_run S1 hs2 S2 -> fresh_run S (hs1 ++ hs2) S2.
Proof.
  intros (Hnd1 & Hf1 & ->) (Hnd2 & Hf2 & ->). repeat split.
  - apply NoDup_app. repeat split; [exact Hnd1| |exact Hnd2].
    intros x Hx1 Hx2. apply (Hf2 x Hx2). apply elem_of_union_l.
    now apply elem_of_list_to_set.
  - intros x [Hx|Hx]%elem_of_app; [now apply Hf1|].
    intros HxS. apply (Hf2 x Hx). now apply elem_of_union_r.
  - apply leibniz_equiv. rewrite list_to_set_app.
    rewrite (comm (∪) (list_to_set hs1) (list_to_set hs2)).
    now rewrite <- (assoc (∪)).
Qed.

Lemma scan_trades_fresh coin fma (trades : list entry) b :
  fresh_run (Final.processed_hashes b)
    (Final.hash <$> (Final.scan_trades b coin fma trades).2)
    (Final.processed_hashes (Final.scan_trades b coin fma trades).1)
  /\ same_config b (Final.scan_trades b coin fma trades).1.
Proof.
  revert b; induction trades as [|e rest IH]; intros b; simpl.
  - split; [apply fresh_run_nil|reflexivity].
  - destruct (Final.classify b coin fma e) as [[l|]|] eqn:Hc; [|apply IH..].
    apply classify_Some in Hc as (t & _ & _ & Hnew & _).
    destruct (IH (Final.mark (Final.hash l) b)) as [Hrun Hcfg].
    destruct (Final.scan_trades (Final.mark (Final.hash l) b) coin fma rest)
      as [b' out]. simpl in *.
    split; [|exact Hcfg].
    apply fresh_run_cons; assumption.
Qed.

Lemma analyze_fresh b coin now r :
  fresh_run (Final.processed_hashes b)
    (Final.hash <$> (Final.analyze_coin_liquidations b coin now r).2)
    (Final.processed_hashes (Final.analyze_coin_liquidations b coin now r).1)
  /\ same_config b (Final.analyze_coin_liquidations b coin now r).1.
Proof.
  destruct r as [|[]|[|e rest]]; simpl;
    try (split; [apply fresh_run_nil|reflexivity]).
  apply (scan_trades_fresh coin _ (e :: rest) b).
Qed.

Lemma gather_fresh (batch : list Final.job) b :
  fresh_run (Final.processed_hashes b)
    (Final.hash <$> concat (Final.gather b batch).2)
    (Final.processed_hashes (Final.gather b batch).1)
  /\ same_config b (Final.gather b batch).1.
Proof.
  revert b; induction batch as [|[coin [now r]] rest IH]; intros b; simpl.
  - split; [apply fresh_run_nil|reflexivity].
  - destruct (analyze_fresh b coin now r) as [H1 C1].
    destruct (Final.analyze_coin_liquidations b coin now r) as [b1 result].
    destruct (IH b1) as [H2 C2].
    destruct (Final.gather b1 rest) as [b2 results]. simpl in *.
    rewrite fmap_app. split; [eapply fresh_run_app; eassumption|].
    unfold same_config in *. congruence.
Qed.

(** Sending alerts writes the counter only, and sends for a sublist of
    the liquidations, in order. *)
Lemma send_all_spec (ls : list Final.liquidation) b :
  Final.processed_hashes (Final.send_all b ls).1 = Final.processed_hashes b
  /\ same_config b (Final.send_all b ls).1
  /\ (fst <$> (Final.send_all b ls).2) `sublist_of` ls.
Proof.
  revert b; induction ls as [|l rest IH]; intros b; simpl.
  - repeat split. constructor.
  - unfold Final.send_liquidation_alert.
    set (b1 := Final.Bot _ _ _).
    destruct (IH b1) as (Hp & Hc & Hs).
    destruct (Final.alert_message l) as [m|];
      destruct (Final.send_all b1 rest) as [b2 out]; simpl in *;
      (repeat split; [exact Hp|exact Hc|]); now constructor.
Qed.

Lemma dedup_run_app b b1 b2 (sent out : list Final.dispatch) :
  dedup_run b (b1, sent) -> dedup_run b1 (b2, out) ->
  dedup_run b (b2, sent ++ out).
Proof.
  intros (hs1 & H1 & Hs1 & C1) (hs2 & H2 & Hs2 & C2). simpl in *.
  exists (hs1 ++ hs2). simpl. split; [eapply fresh_run_app; eassumption|].
  rewrite fmap_app. split; [now apply sublist_app|].
  unfold same_config in *. congruence.
Qed.

Lemma process_batch_dedup b (batch : list Final.job) :
  dedup_run b (Final.process_batch b batch).
Proof.
  unfold Final.process_batch.
  destruct (gather_fresh batch b) as [Hrun Hcfg].
  destruct (Final.gather b batch) as [b1 results]. simpl in *.
  destruct (send_all_spec (concat results) b1) as (Hp & Hc & Hs).
  exists (Final.hash <$> concat results). rewrite Hp.
  split; [exact Hrun|]. split.
  - apply (fmap_sublist Final.hash) in Hs.
    rewrite <- list_fmap_compose in Hs. exact Hs.
  - unfold same_config in *. congruence.
Qed.

Lemma process_batches_dedup (bs : list (list Final.job)) b :
  dedup_run b (Final.process_batches b bs).
Proof.
  revert b; induction bs as [|batch rest IH]; intros b; simpl.
  - exists []. simpl. split; [apply fresh_run_nil|]. split; [constructor|reflexivity].
  - pose proof (process_batch_dedup b batch) as H1.
    destruct (Final.process_batch b batch) as [b1 sent].
    specialize (IH b1).
    destruct (Final.process_batches b1 rest) as [b2 out].
    eapply dedup_run_app; eassumption.
Qed.

Lemma monitor_dedup (cycles : list Final.cycle) b :
  dedup_run b (Final.monitor_liquidations b cycles).
Proof.
  revert b; induction cycles as [|c rest IH]; intros b; simpl.
  - exists []. simpl. split; [apply fresh_run_nil|]. split; [constructor|reflexivity].
  - pose proof (process_batches_dedup (Final.batches (Final.jobs c)) b) as H1.
    unfold Final.scan.
    destruct (Final.process_batches b _) as [b1 sent].
    specialize (IH b1).
    destruct (Final.monitor_liquidations b1 rest) as [b2 out].
    eapply dedup_run_app; eassumption.
Qed.

Lemma filter_absent (h : string) (hs : list string) :
  h ∉ hs -> filter (fun x => x = h) hs = [].
Proof.
  induction hs as [|y hs IH]; intros Hn; [reflexivity|].
  rewrite filter_cons. destruct (decide (y = h)) as [->|Hne].
  - exfalso. apply Hn, elem_of_cons. now left.
  - apply IH. intros Hin. apply Hn, elem_of_cons. now right.
Qed.

Lemma NoDup_count (h : string) (hs : list string) :
  NoDup hs -> (length (filter (fun x => x = h) hs) <= 1)%nat.
Proof.
  induction 1 as [|x hs Hx Hnd IH]; simpl; [lia|].
  rewrite filter_cons. destruct (decide (x = h)) as [->|]; [|exact IH].
  rewrite (filter_absent h hs Hx). simpl. lia.
Qed.

End Dedup.

Section AtMostOnce.

Lemma length_filter_fmap {A : Type} (f : A -> string) (h : string) (l : list A) :
  length (filter (fun d => f d = h) l)
  = length (filter (fun x => x = h) (f <$> l)).
Proof.
  induction l as [|a l IH]; [reflexivity|].
  rewrite fmap_cons, !filter_cons.
  destruct (decide (f a = h)); simpl; now rewrite IH.
Qed.

Lemma dedup_run_NoDup b res :
  dedup_run b res -> NoDup ((fun d => Final.hash d.1) <$> res.2).
Proof.
  intros (hs & (Hnd & _ & _) & Hsub & _). eapply sublist_NoDup; eassumption.
Qed.

Lemma dedup_run_unseen b res (d : Final.dispatch) :
  dedup_run b res -> d ∈ res.2 -> Final.hash d.1 ∉ Final.processed_hashes b.
Proof.
  intros (hs & (_ & Hfresh & _) & Hsub & _) Hd. apply Hfresh.
  eapply elem_of_sublist; [|exact Hsub].
  now apply (list_elem_of_fmap_2 (fun d => Final.hash d.1)).
Qed.

Lemma dedup_run_keeps b res (h : string) :
  dedup_run b res -> h ∈ Final.processed_hashes b ->
  h ∈ Final.processed_hashes res.1.
Proof.
  intros (hs & (_ & _ & ->) & _) Hh. now apply elem_of_union_r.
Qed.

End AtMostOnce.

(** C1. Over any number of scan cycles, from any state of the bot and
    whatever the requests return, the alerts handed to the Telegram client
    report pairwise distinct trade identifiers: for every identifier at
    most one alert is sent, and none for an identifier that was in the seen
    set before. *)
Theorem C1_at_most_one_alert_per_trade (b : Final.bot)
    (cycles : list Final.cycle) (h : string) :
  (length (filter (fun d : Final.dispatch => Final.hash d.1 = h)
             (Final.monitor_liquidations b cycles).2) <= 1)%nat
  /\ NoDup ((fun d : Final.dispatch => Final.hash d.1)
              <$> (Final.monitor_liquidations b cycles).2)
  /\ (h ∈ Final.processed_hashes b ->
      forall d : Final.dispatch,
        d ∈ (Final.monitor_liquidations b cycles).2 -> Final.hash d.1 <> h).
Proof.
  pose proof (monitor_dedup cycles b) as Hrun.
  split; [|split].
  - rewrite length_filter_fmap. apply NoDup_count.
    now apply (dedup_run_NoDup b).
  - now apply (dedup_run_NoDup b).
  - intros Hseen d Hd Heq. subst h.
    exact (dedup_run_unseen b _ d Hrun Hd Hseen).
Qed.

(** ** Trades without a hash *)

(** C10. The identifier of a trade without a ['hash'] is the empty string.
    Once such a trade has been emitted as a liquidation, the empty string
    is in the seen set; from then on, after any number of scan cycles,
    every trade without a hash is skipped at the duplicate check, on any
    coin and whatever its size, and no alert is sent for a trade without
    a hash. *)
Theorem C10_hashless_trades_masked (b0 : Final.bot) (coin0 : string)
    (fma0 : float) (t0 : trade) (l0 : Final.liquidation)
    (cycles : list Final.cycle) :
  tr_hash t0 = Absent ->
  Final.classify b0 coin0 fma0 (Dict t0) = Val (Some l0) ->
  Final.hash l0 = ""%string
  /\ (""%string ∈ Final.processed_hashes (Final.scan_trades b0 coin0 fma0 [Dict t0]).1)
  /\ (forall coin fma t, tr_hash t = Absent ->
        Final.classify
          (Final.monitor_liquidations
             (Final.scan_trades b0 coin0 fma0 [Dict t0]).1 cycles).1
          coin fma (Dict t) = Val None)
  /\ (forall d : Final.dispatch,
        d ∈ (Final.monitor_liquidations
               (Final.scan_trades b0 coin0 fma0 [Dict t0]).1 cycles).2 ->
        Final.hash d.1 <> ""%string).
Proof.
  intros Habs Hc.
  assert (Final.hash l0 = ""%string) as Hh.
  { apply classify_Some in Hc as (t & [= <-] & Hget & _).
    rewrite Habs in Hget. simpl in Hget. congruence. }
  assert (""%string ∈ Final.processed_hashes
            (Final.scan_trades b0 coin0 fma0 [Dict t0]).1) as Hin.
  { cbn [Final.scan_trades]. rewrite Hc. simpl. rewrite Hh.
    apply elem_of_union_l. now apply elem_of_singleton. }
  set (b := (Final.scan_trades b0 coin0 fma0 [Dict t0]).1) in *.
  pose proof (monitor_dedup cycles b) as Hrun.
  repeat split; [exact Hh|exact Hin| |].
  - intros coin fma t Ht. unfold Final.classify. rewrite Ht. cbn [get_or mbind exn_bind].
    rewrite bool_decide_eq_true_2; [reflexivity|].
    now apply (dedup_run_keeps b).
  - intros d Hd Heq.
    apply (dedup_run_unseen b _ d Hrun Hd). now rewrite Heq.
Qed.

Lemma C10_hashless_trades_masked_witness :
  Final.hash hashless_liquidation = ""%string
  /\ (""%string ∈ Final.processed_hashes
        (Final.scan_trades (Final.init 50000) "BTC" 1699999700000
           [Dict (hashless_trade 1699999990000)]).1)
  /\ (forall coin fma t, tr_hash t = Absent ->
        Final.classify
          (Final.monitor_liquidations
             (Final.scan_trades (Final.init 50000) "BTC" 1699999700000
                [Dict (hashless_trade 1699999990000)]).1 []).1
          coin fma (Dict t) = Val None)
  /\ (forall d : Final.dispatch,
        d ∈ (Final.monitor_liquidations
               (Final.scan_trades (Final.init 50000) "BTC" 1699999700000
                  [Dict (hashless_trade 1699999990000)]).1 []).2 ->
        Final.hash d.1 <> ""%string).
Proof.
  apply (C10_hashless_trades_masked (Final.init 50000) "BTC" 1699999700000
           (hashless_trade 1699999990000) hashless_liquidation []).
  - reflexivity.
  - unfold Final.classify.
    cbn [hashless_trade tr_hash tr_time tr_sz tr_px tr_side tr_users get_or
         mbind exn_bind Final.processed_hashes Final.init
         Final.min_liquidation_value].
    rewrite bool_decide_eq_false_2 by apply not_elem_of_empty.
    vm_compute. reflexivity.
Defined.

(** ** Failures of one symbol *)

Section Isolation.





End Isolation.



(** ** The minimum notional *)

Section Floor.

Lemma lt_int_not_ge (v : float) (z : Z) :
  PyFloat.lt_int v z = true -> PyFloat.ge_int v z = false.
Proof.
  unfold PyFloat.lt_int, PyFloat.ge_int.
  destruct (PyFloat.cmp_Z v z) as [[]|]; intros; try discriminate; reflexivity.
Qed.

Lemma final_scan_trades_app coin fma (l1 l2 : list entry) (b : Final.bot) :
  Final.scan_trades b coin fma (l1 ++ l2)
  = ((Final.scan_trades (Final.scan_trades b coin fma l1).1 coin fma l2).1,
     (Final.scan_trades b coin fma l1).2
     ++ (Final.scan_trades (Final.scan_trades b coin fma l1).1 coin fma l2).2).
Proof.
  revert b; induction l1 as [|e l1 IH]; intros b; simpl.
  - now destruct (Final.scan_trades b coin fma l2).
  - destruct (Final.classify b coin fma e) as [[l|]|]; try apply IH.
    rewrite IH.
    destruct (Final.scan_trades (Final.mark (Final.hash l) b) coin fma l1)
      as [b1 out1]. simpl.
    now destruct (Final.scan_trades b1 coin fma l2).
Qed.

Lemma final_analyze_items (b : Final.bot) coin now (trades : list entry) :
  Final.analyze_coin_liquidations b coin now (Items trades)
  = Final.scan_trades b coin (now - 300000)%float trades.
Proof. destruct trades; reflexivity. Qed.

(** A trade under the minimum is not emitted. *)
Lemma final_classify_below (b : Final.bot) coin fma (t : trade) (v : float) :
  notional t = Val v ->
  PyFloat.lt_int v (Final.min_liquidation_value b) = true ->
  forall l, Final.classify b coin fma (Dict t) <> Val (Some l).
Proof.
  intros Hv Hlt l Hc.
  apply classify_Some in Hc as (t' & [= <-] & _ & _ & _ & _ & Hn & Hmin & _).
  rewrite Hv in Hn. injection Hn as ->. congruence.
Qed.

Lemma final_scan_skip (b : Final.bot) coin fma (t : trade) (v : float)
    (rest : list entry) :
  notional t = Val v ->
  PyFloat.lt_int v (Final.min_liquidation_value b) = true ->
  Final.scan_trades b coin fma (Dict t :: rest)
  = Final.scan_trades b coin fma rest.
Proof.
  intros Hv Hlt. cbn [Final.scan_trades].
  pose proof (final_classify_below b coin fma t v Hv Hlt) as Hno.
  destruct (Final.classify b coin fma (Dict t)) as [[l|]|];
    [now destruct (Hno l)|reflexivity..].
Qed.

Lemma railway_scan_trades_app coin oha (l1 l2 : list entry) :
  Railway.scan_trades coin oha (l1 ++ l2)
  = Railway.scan_trades coin oha l1 ++ Railway.scan_trades coin oha l2.
Proof.
  induction l1 as [|e l1 IH]; simpl; [reflexivity|].
  destruct (Railway.classify coin oha e) as [[l|]|]; simpl; now rewrite IH.
Qed.

Lemma railway_send_large_app min_value (l1 l2 : list Railway.liquidation) :
  Railway.send_large min_value (l1 ++ l2)
  = Railway.send_large min_value l1 ++ Railway.send_large min_value l2.
Proof.
  induction l1 as [|l l1 IH]; simpl; [reflexivity|].
  rewrite IH.
  destruct (PyFloat.ge_int _ _); [|reflexivity].
  now destruct (Railway.send_liquidation l).
Qed.

(** What [identify_liquidations] emits carries the size and price of the
    trade. *)
Lemma railway_classify_Some coin oha (t : trade) (l : Railway.liquidation) :
  Railway.classify coin oha (Dict t) = Val (Some l) ->
  notional t = Val (Railway.sz l * Railway.px l)%float.
Proof.
  unfold Railway.classify, notional.
  destruct (get_or 0 (tr_time t)) as [tm|]; [|discriminate].
  cbn [mbind exn_bind].
  destruct (PyFloat.int_lt tm oha); [discriminate|].
  destruct (get_or 0%float (tr_sz t)) as [sz|]; [|discriminate].
  destruct (get_or 0%float (tr_px t)) as [px|]; [|discriminate].
  cbn [mbind exn_bind].
  destruct (Railway.is_significant _ _ _); [|discriminate].
  now intros [= <-].
Qed.

(** The value gate of [monitor_liquidations] drops a trade under the
    minimum that [identify_liquidations] returned. *)
Lemma railway_gate coin oha min_value (t : trade) (v : float) :
  notional t = Val v -> PyFloat.lt_int v min_value = true ->
  Railway.send_large min_value (Railway.scan_trades coin oha [Dict t]) = [].
Proof.
  intros Hv Hlt. cbn [Railway.scan_trades].
  destruct (Railway.classify coin oha (Dict t)) as [[l|]|] eqn:Hc;
    try reflexivity.
  apply railway_classify_Some in Hc. rewrite Hv in Hc. injection Hc as ->.
  cbn [Railway.send_large]. now rewrite (lt_int_not_ge _ _ Hlt).
Qed.

End Floor.

(** C2, refuted for [bot_railway]: [identify_liquidations] knows no
    minimum, and returns an event for a trade of notional 15000 under a
    configured minimum of 50000. *)
Lemma C2_railway_counterexample :
  notional low_trade = Val 15000%float
  /\ PyFloat.lt_int 15000 50000 = true
  /\ Railway.identify_liquidations 1700000000000 (Items [Dict low_trade]) "BTC"
     = [ {| Railway.coin := "BTC"; Railway.sz := 0.5; Railway.px := 30000;
            Railway.side := Some "B"%string; Railway.time := 1699999990000 |} ].
Proof. repeat split; vm_compute; reflexivity. Qed.

(** C2, as amended.  A trade whose notional is strictly under the
    configured minimum never leads to an alert.  In
    [bot_final_liquidations] the classification emits no event for it: the
    scan of a payload returns the same events, and leaves the same state,
    with the trade as without it.  In [bot_railway],
    [identify_liquidations] may return it, and the value gate of
    [monitor_liquidations] drops it: the alerts sent for a payload are the
    same with the trade as without it. *)
Theorem C2_below_minimum_never_alerted (t : trade) (v : float)
    (min_value : Z) (pre post : list entry) (coin : string) (now : float) :
  notional t = Val v ->
  PyFloat.lt_int v min_value = true ->
  (forall b : Final.bot, Final.min_liquidation_value b = min_value ->
     (forall fma l, Final.classify b coin fma (Dict t) <> Val (Some l))
     /\ Final.analyze_coin_liquidations b coin now (Items (pre ++ Dict t :: post))
        = Final.analyze_coin_liquidations b coin now (Items (pre ++ post)))
  /\ Railway.process_coin min_value coin now (Items (pre ++ Dict t :: post))
     = Railway.process_coin min_value coin now (Items (pre ++ post)).
Proof.
  intros Hv Hlt. split.
  - intros b Hb. split.
    + intros fma l. apply (final_classify_below b coin fma t v Hv).
      now rewrite Hb.
    + rewrite !final_analyze_items, !final_scan_trades_app.
      destruct (scan_trades_fresh coin (now - 300000)%float pre b) as [_ Hcfg].
      rewrite (final_scan_skip _ coin _ t v post Hv); [reflexivity|].
      unfold same_config in Hcfg. now rewrite Hcfg, Hb.
  - unfold Railway.process_coin, Railway.identify_liquidations.
    change (Dict t :: post) with ([Dict t] ++ post).
    rewrite !railway_scan_trades_app, !railway_send_large_app.
    now rewrite (railway_gate coin _ min_value t v Hv Hlt).
Qed.

Lemma C2_below_minimum_never_alerted_witness :
  (forall b : Final.bot, Final.min_liquidation_value b = 50000 ->
     (forall fma l, Final.classify b "BTC" fma (Dict low_trade) <> Val (Some l))
     /\ Final.analyze_coin_liquidations b "BTC" 1700000000000
          (Items ([Dict (btc_trade 1699999990000 "0xabc")] ++ Dict low_trade :: []))
        = Final.analyze_coin_liquidations b "BTC" 1700000000000
            (Items ([Dict (btc_trade 1699999990000 "0xabc")] ++ [])))
  /\ Railway.process_coin 50000 "BTC" 1700000000000
       (Items ([Dict (btc_trade 1699999990000 "0xabc")] ++ Dict low_trade :: []))
     = Railway.process_coin 50000 "BTC" 1700000000000
         (Items ([Dict (btc_trade 1699999990000 "0xabc")] ++ [])).
Proof.
  apply (C2_below_minimum_never_alerted low_trade 15000 50000
           [Dict (btc_trade 1699999990000 "0xabc")] [] "BTC" 1700000000000).
  - vm_compute. reflexivity.
  - vm_compute. reflexivity.
Defined.

(** ** The counterparty override *)

(** C3, refuted as stated: a recent trade over the minimum, with two
    counterparties, whose identifier is already in the seen set is stopped
    at the duplicate check and no event is emitted for it. *)
Lemma C3_duplicate_counterexample :
  PyFloat.int_lt 1699999990000 (1700000000000 - 300000)%float = false
  /\ notional (two_party_trade "0xabc") = Val 60000%float
  /\ PyFloat.lt_int 60000 50000 = false
  /\ (2 <= length ["0x01"; "0x02"]%string)%nat
  /\ Final.analyze_coin_liquidations
       (Final.mark "0xabc" (Final.init 50000)) "BTC" 1700000000000
       (Items [Dict (two_party_trade "0xabc")])
     = (Final.mark "0xabc" (Final.init 50000), []).
Proof.
  split; [vm_compute; reflexivity|]. split; [vm_compute; reflexivity|].
  split; [vm_compute; reflexivity|]. split; [simpl; lia|].
  unfold Final.analyze_coin_liquidations, Final.scan_trades, Final.classify.
  cbn [two_party_trade tr_hash get_or mbind exn_bind].
  rewrite bool_decide_eq_true_2; [reflexivity|].
  apply elem_of_union_l. now apply elem_of_singleton.
Qed.

(** C3, as amended.  A trade whose identifier is not in the seen set, that
    passes the recency check and the minimum notional, and that has at
    least two counterparties is emitted as a liquidation, whether or not
    its size meets the tier of its coin; its identifier enters the seen
    set. *)
Theorem C3_counterparty_override (b : Final.bot) (coin : string)
    (five_minutes_ago : float) (t : trade) (h : string) (tm : Z)
    (v : float) (us : list string) (rest : list entry) :
  get_or ""%string (tr_hash t) = Val h ->
  h ∉ Final.processed_hashes b ->
  get_or 0 (tr_time t) = Val tm ->
  PyFloat.int_lt tm five_minutes_ago = false ->
  notional t = Val v ->
  PyFloat.lt_int v (Final.min_liquidation_value b) = false ->
  get_or [] (tr_users t) = Val us ->
  (2 <= length us)%nat ->
  exists l : Final.liquidation,
    Final.classify b coin five_minutes_ago (Dict t) = Val (Some l)
    /\ Final.hash l = h
    /\ Final.value_usd l = v
    /\ Final.users l = us
    /\ (Final.scan_trades b coin five_minutes_ago (Dict t :: rest)).2
       = l :: (Final.scan_trades (Final.mark h b) coin five_minutes_ago rest).2
    /\ (h ∈ Final.processed_hashes
              (Final.scan_trades b coin five_minutes_ago (Dict t :: rest)).1).
Proof.
  intros Hh Hnew Ht Hrecent Hv Hmin Hus Hlen.
  unfold notional in Hv.
  destruct (get_or 0%float (tr_sz t)) as [sz|] eqn:Es; [|discriminate].
  destruct (get_or 0%float (tr_px t)) as [px|] eqn:Ep; [|discriminate].
  cbn [mbind exn_bind] in Hv. injection Hv as <-.
  assert (exists l, Final.classify b coin five_minutes_ago (Dict t) = Val (Some l)
                    /\ Final.hash l = h /\ Final.value_usd l = (sz * px)%float
                    /\ Final.users l = us) as (l & Hc & Hl & Hval & Husers).
  { unfold Final.classify. rewrite Hh. cbn [mbind exn_bind].
    rewrite bool_decide_eq_false_2 by exact Hnew.
    rewrite Ht. cbn [mbind exn_bind]. rewrite Hrecent, Es, Ep.
    cbn [mbind exn_bind]. rewrite Hmin, Hus. cbn [mbind exn_bind].
    apply Nat.leb_le in Hlen. rewrite Hlen.
    destruct (PyFloat.ge_int _ _); eexists; repeat split; reflexivity. }
  exists l. repeat split; try assumption.
  - cbn [Final.scan_trades]. rewrite Hc, Hl.
    now destruct (Final.scan_trades (Final.mark h b) coin five_minutes_ago rest).
  - cbn [Final.scan_trades]. rewrite Hc, Hl.
    destruct (scan_trades_fresh coin five_minutes_ago rest (Final.mark h b))
      as [(_ & _ & Hset) _].
    destruct (Final.scan_trades (Final.mark h b) coin five_minutes_ago rest)
      as [b' out]. simpl in *. rewrite Hset.
    apply elem_of_union_r, elem_of_union_l. now apply elem_of_singleton.
Qed.

Lemma C3_counterparty_override_witness :
  Final.size_tier "BTC" 1 = false
  /\ PyFloat.ge_int 60000 100000 = false
  /\ exists l : Final.liquidation,
      Final.classify (Final.init 50000) "BTC" 1699999700000
        (Dict (two_party_trade "0xabc")) = Val (Some l)
      /\ Final.hash l = "0xabc"%string
      /\ Final.value_usd l = 60000%float
      /\ Final.users l = ["0x01"; "0x02"]%string
      /\ (Final.scan_trades (Final.init 50000) "BTC" 1699999700000
            (Dict (two_party_trade "0xabc") :: [])).2
         = l :: (Final.scan_trades (Final.mark "0xabc" (Final.init 50000))
                   "BTC" 1699999700000 []).2
      /\ ("0xabc"%string ∈ Final.processed_hashes
            (Final.scan_trades (Final.init 50000) "BTC" 1699999700000
               (Dict (two_party_trade "0xabc") :: [])).1).
Proof.
  split; [vm_compute; reflexivity|]. split; [vm_compute; reflexivity|].
  apply (C3_counterparty_override (Final.init 50000) "BTC" 1699999700000
           (two_party_trade "0xabc") "0xabc" 1699999990000 60000
           ["0x01"; "0x02"]%string []).
  - reflexivity.
  - apply not_elem_of_empty.
  - reflexivity.
  - vm_compute. reflexivity.
  - vm_compute. reflexivity.
  - vm_compute. reflexivity.
  - reflexivity.
  - simpl. lia.
Defined.

(** * Further properties of the code *)

(** ** Exact comparisons *)

Section Comparisons.

Lemma cmp_Z_gt_mono (f : float) (z z' : Z) :
  PyFloat.cmp_Z f z = Some Gt -> z' <= z -> PyFloat.cmp_Z f z' = Some Gt.
Proof.
  unfold PyFloat.cmp_Z. destruct (Prim2SF f) as [s|s| |s m e]; try discriminate.
  - intros H0 Hle. assert ((0 ?= z) = Gt) as H by congruence.
    f_equal. apply Z.compare_gt_iff in H. apply Z.compare_gt_iff. lia.
  - destruct s; [discriminate|reflexivity].
  - destruct (0 <=? e) eqn:E; intros H0 Hle;
      match type of H0 with Some ?c = _ => assert (c = Gt) as H by congruence end;
      f_equal; apply Z.compare_gt_iff in H; apply Z.compare_gt_iff; [lia|].
    apply Z.leb_gt in E.
    assert (0 < 2 ^ (- e)) by (apply Z.pow_pos_nonneg; lia). nia.
Qed.

Lemma cmp_Z_eq_below (f : float) (z z' : Z) :
  PyFloat.cmp_Z f z = Some Eq -> z' < z -> PyFloat.cmp_Z f z' = Some Gt.
Proof.
  unfold PyFloat.cmp_Z. destruct (Prim2SF f) as [s|s| |s m e]; try discriminate.
  - intros H0 Hlt. assert ((0 ?= z) = Eq) as H by congruence.
    f_equal. apply Z.compare_eq in H. apply Z.compare_gt_iff. lia.
  - destruct s; discriminate.
  - destruct (0 <=? e) eqn:E; intros H0 Hlt;
      match type of H0 with Some ?c = _ => assert (c = Eq) as H by congruence end;
      f_equal; apply Z.compare_eq in H; apply Z.compare_gt_iff; [lia|].
    apply Z.leb_gt in E.
    assert (0 < 2 ^ (- e)) by (apply Z.pow_pos_nonneg; lia). nia.
Qed.

(** [f > z] carries over to every smaller integer, and [f >= z] gives
    [f > z'] for [z' < z]. *)
Lemma gt_int_mono (f : float) (z z' : Z) :
  PyFloat.gt_int f z = true -> z' <= z -> PyFloat.gt_int f z' = true.
Proof.
  unfold PyFloat.gt_int. destruct (PyFloat.cmp_Z f z) as [[]|] eqn:E;
    try discriminate.
  intros _ Hle. now rewrite (cmp_Z_gt_mono f z z' E Hle).
Qed.

Lemma ge_int_gt_below (f : float) (z z' : Z) :
  PyFloat.ge_int f z = true -> z' < z -> PyFloat.gt_int f z' = true.
Proof.
  unfold PyFloat.ge_int, PyFloat.gt_int.
  destruct (PyFloat.cmp_Z f z) as [[]|] eqn:E; try discriminate; intros _ Hlt.
  - now rewrite (cmp_Z_eq_below f z z' E Hlt).
  - now rewrite (cmp_Z_gt_mono f z z' E ltac:(lia)).
Qed.

(** A product with a NaN is a NaN, which compares with no integer. *)
Lemma cmp_Z_nan_mul_l (y : float) (z : Z) : PyFloat.cmp_Z (nan * y) z = None.
Proof. unfold PyFloat.cmp_Z. rewrite mul_spec. reflexivity. Qed.

Lemma cmp_Z_nan_mul_r (x : float) (z : Z) : PyFloat.cmp_Z (x * nan) z = None.
Proof.
  unfold PyFloat.cmp_Z. rewrite mul_spec.
  change (Prim2SF nan) with S754_nan.
  now destruct (Prim2SF x) as [[]|[]| |[] m e].
Qed.

End Comparisons.

(** ** The batches of a scan: a partition *)

Section Batches.

Context {A : Type}.

Lemma chunks_concat (n : nat) (l : list A) :
  (length l <= n * 10)%nat ->
  concat (map (fun k => take 10 (drop (k * 10) l)) (seq 0 n)) = l.
Proof.
  revert l; induction n as [|n IH]; intros l Hlen.
  - destruct l; [reflexivity|simpl in Hlen; lia].
  - cbn [seq map concat]. rewrite <- seq_shift, map_map.
    rewrite (map_ext _ (fun k => take 10 (drop (k * 10) (drop 10 l)))).
    + change (drop (0 * 10) l) with l.
      rewrite IH; [apply take_drop|].
      rewrite length_drop. lia.
    + intros k. rewrite drop_drop. f_equal.
  Qed.

Lemma batches_count (l : list A) :
  length (Final.batches l) = ((length l + 9) / 10)%nat.
Proof. unfold Final.batches. now rewrite length_map, length_seq. Qed.

Lemma batches_concat (l : list A) : concat (Final.batches l) = l.
Proof.
  unfold Final.batches, Final.batch_size. apply chunks_concat.
  change (10 - 1)%nat with 9%nat.
  pose proof (Nat.div_mod_eq (length l + 9) 10) as Hdm.
  pose proof (Nat.mod_upper_bound (length l + 9) 10 ltac:(lia)). lia.
Qed.

Lemma batches_sizes (l : list A) :
  Forall (fun batch => (1 <= length batch <= 10)%nat) (Final.batches l).
Proof.
  unfold Final.batches, Final.batch_size. change (10 - 1)%nat with 9%nat.
  apply Forall_forall. intros batch Hin.
  apply list_elem_of_In, in_map_iff in Hin as (k & <- & Hk).
  apply in_seq in Hk.
  pose proof (Nat.Div0.mul_div_le (length l + 9) 10).
  rewrite length_take, length_drop. lia.
Qed.

End Batches.

(** X1. The batches of a scan partition the coins: put end to end, in
    order, they give back the list, so every coin is analysed exactly once
    per scan; no batch is empty and none has more than ten coins; a list of
    [n] coins makes [(n + 9) / 10] batches. *)
Theorem X1_batches_partition (jobs : list Final.job) :
  concat (Final.batches jobs) = jobs
  /\ Forall (fun batch => (1 <= length batch <= 10)%nat) (Final.batches jobs)
  /\ length (Final.batches jobs) = ((length jobs + 9) / 10)%nat.
Proof.
  split; [apply batches_concat|]. split; [apply batches_sizes|apply batches_count].
Qed.

Lemma jobs_coins (f : nat -> float * response) (l : list string) :
  (imap (fun i coin => (coin, f i)) l).*1 = l.
Proof.
  revert f; induction l as [|x l IH]; intros f; [reflexivity|].
  cbn [imap fmap list_fmap]. simpl. f_equal.
  exact (IH (fun i => f (S i))).
Qed.

(** X2. [get_all_coins] never returns more than fifty coins, and they are
    the first names of the universe in order; a scan makes one request per
    coin, in at most five batches. *)
Theorem X2_scan_bounds (c : Final.cycle) (assets : list (option string)) :
  (length (Final.get_all_coins (Final.meta c)) <= 50)%nat
  /\ Final.get_all_coins (MetaUniverse assets) `prefix_of` names assets
  /\ (fst <$> Final.jobs c) = Final.get_all_coins (Final.meta c)
  /\ (length (Final.batches (Final.jobs c)) <= 5)%nat.
Proof.
  assert (length (Final.get_all_coins (Final.meta c)) <= 50)%nat as Hlen.
  { destruct (Final.meta c); simpl; [lia|lia|].
    rewrite length_take. lia. }
  split; [exact Hlen|]. split; [|split].
  - simpl. exists (drop 50 (names assets)). symmetry. apply take_drop.
  - apply jobs_coins.
  - rewrite batches_count. unfold Final.jobs. rewrite length_imap.
    apply Nat.lt_succ_r, Nat.Div0.div_lt_upper_bound. lia.
Qed.

(** ** The seen set and the alert counter *)

(** A run from [b] that emits the identifiers [hs]: the counter of alerts
    advances by their number, and no more messages are sent than that. *)
Definition accounted (b : Final.bot) (res : Final.bot * list Final.dispatch) : Prop :=
  exists hs, fresh_run (Final.processed_hashes b) hs (Final.processed_hashes res.1)
    /\ Final.liquidations_count res.1
       = (Final.liquidations_count b + length hs)%nat
    /\ (length res.2 <= length hs)%nat.

Section Accounting.

Lemma fresh_run_size (S S' : gset string) (hs : list string) :
  fresh_run S hs S' -> size S' = (length hs + size S)%nat.
Proof.
  intros (Hnd & Hfresh & ->).
  rewrite size_union.
  - now rewrite size_list_to_set.
  - intros x Hx HxS. apply elem_of_list_to_set in Hx. exact (Hfresh x Hx HxS).
Qed.

Lemma fresh_run_subseteq (S S' : gset string) (hs : list string) :
  fresh_run S hs S' -> S ⊆ S'.
Proof. intros (_ & _ & ->). apply union_subseteq_r. Qed.

Lemma scan_trades_count coin fma (trades : list entry) (b : Final.bot) :
  Final.liquidations_count (Final.scan_trades b coin fma trades).1
  = Final.liquidations_count b.
Proof.
  revert b; induction trades as [|e rest IH]; intros b; [reflexivity|].
  cbn [Final.scan_trades].
  destruct (Final.classify b coin fma e) as [[l|]|]; try apply IH.
  specialize (IH (Final.mark (Final.hash l) b)).
  now destruct (Final.scan_trades (Final.mark (Final.hash l) b) coin fma rest).
Qed.

Lemma gather_count (batch : list Final.job) (b : Final.bot) :
  Final.liquidations_count (Final.gather b batch).1 = Final.liquidations_count b.
Proof.
  revert b; induction batch as [|[coin [now r]] rest IH]; intros b; [reflexivity|].
  cbn [Final.gather].
  assert (Final.liquidations_count (Final.analyze_coin_liquidations b coin now r).1
          = Final.liquidations_count b) as H1.
  { destruct r as [|[]|[|e l]]; try reflexivity. apply scan_trades_count. }
  destruct (Final.analyze_coin_liquidations b coin now r) as [b1 result].
  specialize (IH b1). destruct (Final.gather b1 rest) as [b2 results].
  simpl in *. congruence.
Qed.

Lemma send_all_count (ls : list Final.liquidation) (b : Final.bot) :
  Final.liquidations_count (Final.send_all b ls).1
  = (Final.liquidations_count b + length ls)%nat
  /\ (length (Final.send_all b ls).2 <= length ls)%nat.
Proof.
  revert b; induction ls as [|l rest IH]; intros b; simpl; [lia|].
  unfold Final.send_liquidation_alert.
  set (b1 := Final.Bot _ _ _).
  destruct (IH b1) as [Hc Hl].
  destruct (Final.alert_message l) as [m|];
    destruct (Final.send_all b1 rest) as [b2 out]; simpl in *; lia.
Qed.

Lemma accounted_app b b1 b2 (sent out : list Final.dispatch) :
  accounted b (b1, sent) -> accounted b1 (b2, out) -> accounted b (b2, sent ++ out).
Proof.
  intros (hs1 & H1 & C1 & L1) (hs2 & H2 & C2 & L2). simpl in *.
  exists (hs1 ++ hs2). simpl. rewrite !length_app.
  split; [eapply fresh_run_app; eassumption|]. lia.
Qed.

Lemma process_batch_accounted b (batch : list Final.job) :
  accounted b (Final.process_batch b batch).
Proof.
  unfold Final.process_batch.
  destruct (gather_fresh batch b) as [Hrun _].
  pose proof (gather_count batch b) as Hcount.
  destruct (Final.gather b batch) as [b1 results]. simpl in *.
  destruct (send_all_spec (concat results) b1) as (Hp & _ & _).
  destruct (send_all_count (concat results) b1) as [Hc Hl].
  exists (Final.hash <$> concat results).
  rewrite Hp, length_fmap. split; [exact Hrun|]. split; [lia|exact Hl].
Qed.

Lemma monitor_accounted (cycles : list Final.cycle) b :
  accounted b (Final.monitor_liquidations b cycles).
Proof.
  assert (forall bs b0, accounted b0 (Final.process_batches b0 bs)) as Hbs.
  { induction bs as [|batch rest IH]; intros b0; simpl.
    - exists []. simpl. split; [apply fresh_run_nil|lia].
    - pose proof (process_batch_accounted b0 batch) as H1.
      destruct (Final.process_batch b0 batch) as [b1 sent].
      specialize (IH b1). destruct (Final.process_batches b1 rest) as [b2 out].
      eapply accounted_app; eassumption. }
  revert b; induction cycles as [|c rest IH]; intros b; simpl.
  - exists []. simpl. split; [apply fresh_run_nil|lia].
  - pose proof (Hbs (Final.batches (Final.jobs c)) b) as H1.
    unfold Final.scan.
    destruct (Final.process_batches b _) as [b1 sent].
    specialize (IH b1). destruct (Final.monitor_liquidations b1 rest) as [b2 out].
    eapply accounted_app; eassumption.
Qed.

End Accounting.

(** X3. Over any number of scan cycles the seen set only grows, and it
    grows by exactly as many identifiers as the alert counter advances:
    every liquidation found adds one new identifier.  The messages handed
    to the Telegram client are at most as many.  On a bot started by
    [__init__] the counter is the size of the seen set. *)
Theorem X3_seen_set_accounting (b : Final.bot) (cycles : list Final.cycle)
    (min_value : Z) :
  Final.processed_hashes b
    ⊆ Final.processed_hashes (Final.monitor_liquidations b cycles).1
  /\ (size (Final.processed_hashes (Final.monitor_liquidations b cycles).1)
      + Final.liquidations_count b
      = size (Final.processed_hashes b)
        + Final.liquidations_count (Final.monitor_liquidations b cycles).1)%nat
  /\ (length (Final.monitor_liquidations b cycles).2 + Final.liquidations_count b
      <= Final.liquidations_count (Final.monitor_liquidations b cycles).1)%nat
  /\ Final.liquidations_count
       (Final.monitor_liquidations (Final.init min_value) cycles).1
     = size (Final.processed_hashes
               (Final.monitor_liquidations (Final.init min_value) cycles).1).
Proof.
  destruct (monitor_accounted cycles b) as (hs & Hrun & Hc & Hl).
  split; [exact (fresh_run_subseteq _ _ _ Hrun)|].
  apply fresh_run_size in Hrun. split; [lia|]. split; [lia|].
  destruct (monitor_accounted cycles (Final.init min_value)) as (hs0 & Hrun0 & Hc0 & _).
  apply fresh_run_size in Hrun0.
  change (Final.processed_hashes (Final.init min_value)) with (∅ : gset string)
    in Hrun0.
  rewrite size_empty in Hrun0. simpl in Hc0. lia.
Qed.

(** ** What the classification of [bot_final_liquidations] emits *)

(** The three criteria of [analyze_coin_liquidations]: the size tier of
    the coin, two counterparties, or a notional of 100000. *)
Definition criteria (coin : string) (sz value_usd : float)
    (users : list string) : bool :=
  Final.size_tier coin sz || (2 <=? length users)%nat
  || PyFloat.ge_int value_usd 100000.

(** The identifier, time, size and price of a trade whose fields can all
    be read, and of a liquidation. *)
Definition entry_key (e : entry) : option (string * Z * float * float) :=
  match e with
  | NotDict => None
  | Dict t =>
      match get_or ""%string (tr_hash t), get_or 0 (tr_time t),
            get_or 0%float (tr_sz t), get_or 0%float (tr_px t) with
      | Val h, Val tm, Val sz, Val px => Some (h, tm, sz, px)
      | _, _, _, _ => None
      end
  end.

Definition liquidation_key (l : Final.liquidation) : string * Z * float * float :=
  (Final.hash l, Final.time l, Final.sz l, Final.px l).

(** An element of the payload that is no object, or whose identifier,
    time, size or price cannot be read. *)
Definition unreadable (e : entry) : bool :=
  match entry_key e with
  | Some _ => false
  | None => true
  end.

Section Classification.

Implicit Types (b : Final.bot) (l : Final.liquidation) (t : trade).

(** The decision of [classify] on a trade whose fields can be read. *)
Lemma classify_readable b coin fma t h tm sz px us :
  get_or ""%string (tr_hash t) = Val h ->
  get_or 0 (tr_time t) = Val tm ->
  get_or 0%float (tr_sz t) = Val sz ->
  get_or 0%float (tr_px t) = Val px ->
  get_or [] (tr_users t) = Val us ->
  Final.classify b coin fma (Dict t)
  = if bool_decide (h ∈ Final.processed_hashes b) then Val None
    else if PyFloat.int_lt tm fma then Val None
    else if PyFloat.lt_int (sz * px) (Final.min_liquidation_value b) then Val None
    else if criteria coin sz (sz * px) us
    then Val (Some {| Final.coin := coin; Final.sz := sz; Final.px := px;
                      Final.side := match tr_side t with
                                    | Absent => Some ""%string
                                    | Present s => Some s
                                    | Bad => None
                                    end;
                      Final.value_usd := (sz * px)%float; Final.time := tm;
                      Final.hash := h; Final.users := us |})
    else Val None.
Proof.
  intros Hh Ht Hs Hp Hu. unfold Final.classify, criteria.
  rewrite Hh. cbn [mbind exn_bind]. case_bool_decide; [reflexivity|].
  rewrite Ht. cbn [mbind exn_bind]. destruct (PyFloat.int_lt tm fma); [reflexivity|].
  rewrite Hs, Hp. cbn [mbind exn_bind].
  destruct (PyFloat.lt_int _ _); [reflexivity|].
  rewrite Hu. cbn [mbind exn_bind].
  destruct (Final.size_tier coin sz), (2 <=? length us)%nat,
    (PyFloat.ge_int (sz * px) 100000); reflexivity.
Qed.

(** Everything [classify] checks before it emits a trade. *)
Lemma classify_inv b coin fma e l :
  Final.classify b coin fma e = Val (Some l) ->
  entry_key e = Some (liquidation_key l)
  /\ (Final.hash l ∉ Final.processed_hashes b)
  /\ PyFloat.int_lt (Final.time l) fma = false
  /\ Final.value_usd l = (Final.sz l * Final.px l)%float
  /\ PyFloat.lt_int (Final.value_usd l) (Final.min_liquidation_value b) = false
  /\ criteria coin (Final.sz l) (Final.value_usd l) (Final.users l) = true
  /\ Final.coin l = coin.
Proof.
  destruct e as [|t]; [discriminate|].
  destruct (get_or ""%string (tr_hash t)) as [h|] eqn:Hh;
    [|unfold Final.classify; rewrite Hh; discriminate].
  destruct (get_or 0 (tr_time t)) as [tm|] eqn:Ht.
  2:{ unfold Final.classify. rewrite Hh, Ht. cbn [mbind exn_bind].
      case_bool_decide; discriminate. }
  destruct (get_or 0%float (tr_sz t)) as [sz|] eqn:Hs.
  2:{ unfold Final.classify. rewrite Hh, Ht, Hs. cbn [mbind exn_bind].
      case_bool_decide; [discriminate|]. destruct (PyFloat.int_lt tm fma); discriminate. }
  destruct (get_or 0%float (tr_px t)) as [px|] eqn:Hp.
  2:{ unfold Final.classify. rewrite Hh, Ht, Hs, Hp. cbn [mbind exn_bind].
      case_bool_decide; [discriminate|]. destruct (PyFloat.int_lt tm fma); discriminate. }
  destruct (get_or [] (tr_users t)) as [us|] eqn:Hu.
  2:{ unfold Final.classify. rewrite Hh, Ht, Hs, Hp, Hu. cbn [mbind exn_bind].
      case_bool_decide; [discriminate|]. destruct (PyFloat.int_lt tm fma); [discriminate|].
      destruct (PyFloat.lt_int _ _); discriminate. }
  rewrite (classify_readable b coin fma t h tm sz px us Hh Ht Hs Hp Hu).
  case_bool_decide as Hseen; [discriminate|].
  destruct (PyFloat.int_lt tm fma) eqn:Hrecent; [discriminate|].
  destruct (PyFloat.lt_int _ _) eqn:Hmin; [discriminate|].
  destruct (criteria _ _ _ _) eqn:Hcrit; [|discriminate].
  intros [= <-]. unfold entry_key, liquidation_key. rewrite Hh, Ht, Hs, Hp.
  cbn. auto 10.
Qed.

(** What [classify] emits does not depend on identifiers it has not seen:
    a trade emitted from a larger seen set is emitted from a smaller one. *)
Lemma classify_anti b b2 coin fma e l :
  Final.processed_hashes b ⊆ Final.processed_hashes b2 ->
  Final.min_liquidation_value b = Final.min_liquidation_value b2 ->
  Final.classify b2 coin fma e = Val (Some l) ->
  Final.classify b coin fma e = Val (Some l).
Proof.
  intros Hsub Hmin. destruct e as [|t]; [discriminate|].
  unfold Final.classify. rewrite Hmin.
  destruct (get_or ""%string (tr_hash t)) as [h|]; [|discriminate].
  cbn [mbind exn_bind].
  case_bool_decide as H2; [discriminate|].
  rewrite bool_decide_eq_false_2; [tauto|].
  intros Hin. apply H2, Hsub, Hin.
Qed.

(** A trade emitted once is stopped at the duplicate check wherever its
    identifier is seen. *)
Lemma classify_seen b b2 coin fma e l :
  Final.classify b coin fma e = Val (Some l) ->
  Final.hash l ∈ Final.processed_hashes b2 ->
  Final.classify b2 coin fma e = Val None.
Proof.
  intros Hc Hin. apply classify_inv in Hc as (Hkey & _).
  destruct e as [|t]; [discriminate|]. unfold entry_key in Hkey.
  unfold Final.classify.
  destruct (get_or ""%string (tr_hash t)) as [h|]; [|discriminate].
  destruct (get_or 0 (tr_time t)), (get_or 0%float (tr_sz t)),
    (get_or 0%float (tr_px t)); try discriminate.
  injection Hkey as -> _ _ _. cbn [mbind exn_bind].
  now rewrite bool_decide_eq_true_2.
Qed.

(** An unreadable element is never emitted. *)
Lemma classify_unreadable b coin fma e :
  unreadable e = true -> forall l, Final.classify b coin fma e <> Val (Some l).
Proof.
  intros Hu l Hc. apply classify_inv in Hc as (Hkey & _).
  unfold unreadable in Hu. now rewrite Hkey in Hu.
Qed.

Lemma scan_trades_keys coin fma (trades : list entry) b :
  (liquidation_key <$> (Final.scan_trades b coin fma trades).2)
    `sublist_of` omap entry_key trades.
Proof.
  revert b; induction trades as [|e rest IH]; intros b; [constructor|].
  cbn [Final.scan_trades omap list_omap].
  destruct (Final.classify b coin fma e) as [[l|]|] eqn:Hc.
  - apply classify_inv in Hc as (Hkey & _). rewrite Hkey.
    specialize (IH (Final.mark (Final.hash l) b)).
    destruct (Final.scan_trades (Final.mark (Final.hash l) b) coin fma rest).
    simpl in *. now constructor.
  - destruct (entry_key e); [constructor|]; apply IH.
  - destruct (entry_key e); [constructor|]; apply IH.
Qed.

Lemma scan_trades_sound coin fma (trades : list entry) b :
  Forall (fun l =>
            Final.coin l = coin
            /\ PyFloat.int_lt (Final.time l) fma = false
            /\ Final.value_usd l = (Final.sz l * Final.px l)%float
            /\ PyFloat.lt_int (Final.value_usd l) (Final.min_liquidation_value b) = false
            /\ criteria coin (Final.sz l) (Final.value_usd l) (Final.users l) = true)
         (Final.scan_trades b coin fma trades).2.
Proof.
  revert b; induction trades as [|e rest IH]; intros b; [constructor|].
  cbn [Final.scan_trades].
  destruct (Final.classify b coin fma e) as [[l|]|] eqn:Hc; try apply IH.
  apply classify_inv in Hc as (_ & _ & Hr & Hv & Hm & Hcr & Hcoin).
  specialize (IH (Final.mark (Final.hash l) b)).
  destruct (Final.scan_trades (Final.mark (Final.hash l) b) coin fma rest).
  simpl in *. constructor; [auto 10|exact IH].
Qed.

End Classification.

(** X4. The liquidations [analyze_coin_liquidations] returns follow the
    order of the payload: their identifiers, times, sizes and prices are,
    in order, those of some of the readable trades of the payload. *)
Theorem X4_events_in_payload_order (b : Final.bot) (coin : string)
    (now : float) (trades : list entry) :
  (liquidation_key <$> (Final.analyze_coin_liquidations b coin now (Items trades)).2)
    `sublist_of` omap entry_key trades.
Proof. rewrite final_analyze_items. apply scan_trades_keys. Qed.

(** X5. Every liquidation [analyze_coin_liquidations] returns is for the
    coin scanned, is not older than five minutes, has the product of its
    size and price as value, a value not under the configured minimum, and
    meets one of the three criteria: the size tier of the coin, two
    counterparties, or a value of 100000. *)
Theorem X5_events_are_sound (b : Final.bot) (coin : string) (now : float)
    (r : response) :
  Forall (fun l =>
            Final.coin l = coin
            /\ PyFloat.int_lt (Final.time l) (now - 300000)%float = false
            /\ Final.value_usd l = (Final.sz l * Final.px l)%float
            /\ PyFloat.lt_int (Final.value_usd l) (Final.min_liquidation_value b) = false
            /\ criteria coin (Final.sz l) (Final.value_usd l) (Final.users l) = true)
         (Final.analyze_coin_liquidations b coin now r).2.
Proof.
  destruct r as [|[]|trades]; try constructor.
  rewrite final_analyze_items. apply scan_trades_sound.
Qed.

(** X6. A readable trade whose identifier is not in the seen set, that is
    not older than five minutes and whose value is at least 100000 and not
    under the minimum, is emitted on any coin and whatever its size and its
    counterparties. *)
Theorem X6_large_value_override (b : Final.bot) (coin : string)
    (five_minutes_ago : float) (t : trade) (h : string) (tm : Z)
    (sz px : float) (us : list string) :
  get_or ""%string (tr_hash t) = Val h ->
  h ∉ Final.processed_hashes b ->
  get_or 0 (tr_time t) = Val tm ->
  PyFloat.int_lt tm five_minutes_ago = false ->
  get_or 0%float (tr_sz t) = Val sz ->
  get_or 0%float (tr_px t) = Val px ->
  get_or [] (tr_users t) = Val us ->
  PyFloat.lt_int (sz * px) (Final.min_liquidation_value b) = false ->
  PyFloat.ge_int (sz * px) 100000 = true ->
  exists l : Final.liquidation,
    Final.classify b coin five_minutes_ago (Dict t) = Val (Some l)
    /\ liquidation_key l = (h, tm, sz, px)
    /\ Final.value_usd l = (sz * px)%float.
Proof.
  intros Hh Hnew Ht Hrecent Hs Hp Hu Hmin Hbig.
  rewrite (classify_readable b coin five_minutes_ago t h tm sz px us Hh Ht Hs Hp Hu).
  rewrite bool_decide_eq_false_2 by exact Hnew.
  rewrite Hrecent, Hmin. unfold criteria. rewrite Hbig, orb_true_r.
  eexists. repeat split.
Qed.

(** A recent trade of 40000 DOGE at 3: a value of 120000, with a size
    under the tier of 50000 DOGE and no counterparty. *)
Definition large_trade : trade :=
  {| tr_time := Present 1699999990000; tr_hash := Present "0x77"%string;
     tr_sz := Present 40000%float; tr_px := Present 3%float;
     tr_side := Present "A"%string; tr_users := Present [] |}.

Lemma X6_large_value_override_witness :
  Final.size_tier "DOGE" 40000 = false
  /\ exists l : Final.liquidation,
      Final.classify (Final.init 50000) "DOGE" 1699999700000 (Dict large_trade)
        = Val (Some l)
      /\ liquidation_key l = ("0x77"%string, 1699999990000, 40000%float, 3%float)
      /\ Final.value_usd l = (40000 * 3)%float.
Proof.
  split; [vm_compute; reflexivity|].
  apply (X6_large_value_override (Final.init 50000) "DOGE" 1699999700000
           large_trade "0x77" 1699999990000 40000 3 []).
  - reflexivity.
  - apply not_elem_of_empty.
  - reflexivity.
  - vm_compute. reflexivity.
  - reflexivity.
  - reflexivity.
  - reflexivity.
  - vm_compute. reflexivity.
  - vm_compute. reflexivity.
Defined.

Section Rescan.

Lemma scan_trades_grows coin fma (trades : list entry) (b : Final.bot) :
  Final.processed_hashes b
    ⊆ Final.processed_hashes (Final.scan_trades b coin fma trades).1.
Proof.
  destruct (scan_trades_fresh coin fma trades b) as [Hrun _].
  exact (fresh_run_subseteq _ _ _ Hrun).
Qed.

(** Scanning a payload from a seen set that holds what a first scan of it
    left emits nothing. *)
Lemma scan_trades_again coin fma (trades : list entry) (b b2 : Final.bot) :
  Final.min_liquidation_value b = Final.min_liquidation_value b2 ->
  Final.processed_hashes (Final.scan_trades b coin fma trades).1
    ⊆ Final.processed_hashes b2 ->
  Final.scan_trades b2 coin fma trades = (b2, []).
Proof.
  revert b; induction trades as [|e rest IH]; intros b Hmin Hsub; [reflexivity|].
  cbn [Final.scan_trades] in *.
  destruct (Final.classify b coin fma e) as [[l|]|] eqn:Hc.
  - assert (Final.hash l ∈ Final.processed_hashes b2) as Hin.
    { apply Hsub.
      pose proof (scan_trades_grows coin fma rest (Final.mark (Final.hash l) b)) as Hg.
      destruct (Final.scan_trades (Final.mark (Final.hash l) b) coin fma rest).
      simpl in *. apply Hg, elem_of_union_l. now apply elem_of_singleton. }
    rewrite (classify_seen b b2 coin fma e l Hc Hin).
    apply (IH (Final.mark (Final.hash l) b)); [exact Hmin|].
    destruct (Final.scan_trades (Final.mark (Final.hash l) b) coin fma rest).
    exact Hsub.
  - destruct (Final.classify b2 coin fma e) as [[l2|]|] eqn:Hc2;
      try (apply (IH b); assumption).
    apply (classify_anti b b2) in Hc2; [congruence| |exact Hmin].
    etrans; [apply (scan_trades_grows coin fma rest b)|exact Hsub].
  - destruct (Final.classify b2 coin fma e) as [[l2|]|] eqn:Hc2;
      try (apply (IH b); assumption).
    apply (classify_anti b b2) in Hc2; [congruence| |exact Hmin].
    etrans; [apply (scan_trades_grows coin fma rest b)|exact Hsub].
Qed.

End Rescan.

(** X7. Scanning the same payload a second time, with the same clock,
    returns no liquidation and leaves the bot as the first scan left it:
    what was emitted is now in the seen set, and what was rejected is
    rejected again. *)
Theorem X7_rescan_emits_nothing (b : Final.bot) (coin : string) (now : float)
    (r : response) :
  Final.analyze_coin_liquidations
    (Final.analyze_coin_liquidations b coin now r).1 coin now r
  = ((Final.analyze_coin_liquidations b coin now r).1, []).
Proof.
  destruct r as [|[]|trades]; try reflexivity.
  rewrite !final_analyze_items.
  apply (scan_trades_again coin _ trades b); [|reflexivity].
  destruct (scan_trades_fresh coin (now - 300000)%float trades b) as [_ Hcfg].
  unfold same_config in Hcfg. now rewrite Hcfg.
Qed.

(** ** Sizes and prices that are not numbers *)

Section NotANumber.

Lemma mul_nan (x y : float) :
  x = nan \/ y = nan -> Prim2SF (x * y) = S754_nan.
Proof.
  intros [-> | ->]; rewrite mul_spec; change (Prim2SF nan) with S754_nan.
  - reflexivity.
  - now destruct (Prim2SF x) as [[]|[]| |[] m e].
Qed.

Lemma cmp_Z_nan (v : float) (z : Z) :
  Prim2SF v = S754_nan -> PyFloat.cmp_Z v z = None.
Proof. intros H. unfold PyFloat.cmp_Z. now rewrite H. Qed.

Lemma final_amount_nan (v : float) :
  Prim2SF v = S754_nan -> Final.amount_str v = "$nan"%string.
Proof.
  intros H. unfold Final.amount_str, Final.magnitude, PyFloat.ge_int.
  rewrite !(cmp_Z_nan v _ H). unfold PyFloat.format_f. now rewrite H.
Qed.

Lemma railway_not_significant_nan (coin : string) (sz v : float) :
  Prim2SF v = S754_nan -> Railway.is_significant coin sz v = false.
Proof.
  intros H. unfold Railway.is_significant, PyFloat.gt_int.
  rewrite !(cmp_Z_nan v _ H), !andb_false_r.
  repeat match goal with |- context [if ?c then _ else _] => destruct c end;
    reflexivity.
Qed.

End NotANumber.

(** X8. The minimum does not stop a trade whose size or price is a NaN
    (as [float()] gives for the text ["nan"]): its value is then a NaN,
    which is under no minimum.  In [bot_final_liquidations] such a trade
    with two counterparties, recent and not seen, is emitted whatever the
    configured minimum, and its alert shows the amount ["$nan"]; in
    [bot_railway] it is never returned by [identify_liquidations]. *)
Theorem X8_nan_value_passes_the_minimum (b : Final.bot) (coin : string)
    (fma : float) (t : trade) (h : string) (tm : Z) (sz px : float)
    (us : list string) :
  get_or ""%string (tr_hash t) = Val h ->
  h ∉ Final.processed_hashes b ->
  get_or 0 (tr_time t) = Val tm ->
  PyFloat.int_lt tm fma = false ->
  get_or 0%float (tr_sz t) = Val sz ->
  get_or 0%float (tr_px t) = Val px ->
  sz = nan \/ px = nan ->
  get_or [] (tr_users t) = Val us ->
  (2 <= length us)%nat ->
  (exists l : Final.liquidation,
      Final.classify b coin fma (Dict t) = Val (Some l)
      /\ liquidation_key l = (h, tm, sz, px)
      /\ Final.amount_str (Final.value_usd l) = "$nan"%string)
  /\ (forall oha l', Railway.classify coin oha (Dict t) <> Val (Some l')).
Proof.
  intros Hh Hnew Ht Hrecent Hs Hp Hnan Hu Hlen.
  pose proof (mul_nan sz px Hnan) as Hv.
  split.
  - rewrite (classify_readable b coin fma t h tm sz px us Hh Ht Hs Hp Hu).
    rewrite bool_decide_eq_false_2 by exact Hnew. rewrite Hrecent.
    unfold PyFloat.lt_int. rewrite (cmp_Z_nan _ _ Hv).
    unfold criteria. apply Nat.leb_le in Hlen. rewrite Hlen, orb_true_r.
    eexists. split; [reflexivity|]. split; [reflexivity|].
    now apply final_amount_nan.
  - intros oha l'. unfold Railway.classify. rewrite Ht. cbn [mbind exn_bind].
    destruct (PyFloat.int_lt tm oha); [discriminate|].
    rewrite Hs, Hp. cbn [mbind exn_bind].
    now rewrite (railway_not_significant_nan coin sz _ Hv).
Qed.

(** A recent trade between two users whose size is a NaN. *)
Definition nan_trade : trade :=
  {| tr_time := Present 1699999990000; tr_hash := Present "0x99"%string;
     tr_sz := Present nan; tr_px := Present 60000%float;
     tr_side := Present "B"%string;
     tr_users := Present ["0x01"; "0x02"]%string |}.

Lemma X8_nan_value_passes_the_minimum_witness :
  (exists l : Final.liquidation,
      Final.classify (Final.init 50000) "BTC" 1699999700000 (Dict nan_trade)
        = Val (Some l)
      /\ liquidation_key l = ("0x99"%string, 1699999990000, nan, 60000%float)
      /\ Final.amount_str (Final.value_usd l) = "$nan"%string)
  /\ (forall oha l', Railway.classify "BTC" oha (Dict nan_trade) <> Val (Some l')).
Proof.
  apply (X8_nan_value_passes_the_minimum (Final.init 50000) "BTC" 1699999700000
           nan_trade "0x99" 1699999990000 nan 60000 ["0x01"; "0x02"]%string).
  - reflexivity.
  - apply not_elem_of_empty.
  - reflexivity.
  - vm_compute. reflexivity.
  - reflexivity.
  - reflexivity.
  - now left.
  - reflexivity.
  - simpl. lia.
Defined.

(** ** Elements of the payload that cannot be read *)

(** X9. An element of the payload that is no object, or whose identifier,
    time, size or price cannot be read, is skipped: the scan returns the
    liquidations, and leaves the state, that it gives for the payload
    without that element. *)
Theorem X9_unreadable_trade_skipped (b : Final.bot) (coin : string)
    (now : float) (pre post : list entry) (e : entry) :
  unreadable e = true ->
  Final.analyze_coin_liquidations b coin now (Items (pre ++ e :: post))
  = Final.analyze_coin_liquidations b coin now (Items (pre ++ post)).
Proof.
  intros Hu. rewrite !final_analyze_items, !final_scan_trades_app.
  set (b1 := (Final.scan_trades b coin (now - 300000)%float pre).1).
  cbn [Final.scan_trades].
  pose proof (classify_unreadable b1 coin (now - 300000)%float e Hu) as Hno.
  destruct (Final.classify b1 coin (now - 300000)%float e) as [[l|]|];
    [now destruct (Hno l)|reflexivity..].
Qed.

(** An object whose size is text that [float()] rejects. *)
Definition garbled_trade : trade :=
  {| tr_time := Present 1699999990000; tr_hash := Present "0x55"%string;
     tr_sz := Bad; tr_px := Present 60000%float;
     tr_side := Present "B"%string; tr_users := Present [] |}.

Lemma X9_unreadable_trade_skipped_witness :
  Final.analyze_coin_liquidations (Final.init 50000) "BTC" 1700000000000
    (Items ([Dict (btc_trade 1699999990000 "0xabc")]
            ++ Dict garbled_trade :: [NotDict]))
  = Final.analyze_coin_liquidations (Final.init 50000) "BTC" 1700000000000
      (Items ([Dict (btc_trade 1699999990000 "0xabc")] ++ [NotDict])).
Proof.
  apply (X9_unreadable_trade_skipped (Final.init 50000) "BTC" 1700000000000
           [Dict (btc_trade 1699999990000 "0xabc")] [NotDict]
           (Dict garbled_trade)).
  reflexivity.
Defined.

(** ** The rotation of [bot_railway] *)

Section Rotation.

Lemma coins_count : length Railway.coins_to_check = 53%nat.
Proof. reflexivity. Qed.

Lemma start_idx_bound (n : nat) : (Railway.start_idx n < 53)%nat.
Proof.
  unfold Railway.start_idx. rewrite coins_count.
  apply Nat.mod_upper_bound. lia.
Qed.

Lemma start_idx_mod (n : nat) :
  Railway.start_idx n = Railway.start_idx ((n - 1) mod 53 + 1).
Proof.
  unfold Railway.start_idx. rewrite coins_count, Nat.add_sub.
  now rewrite Nat.Div0.mul_mod_idemp_l.
Qed.

Lemma current_batch_mod (n : nat) :
  Railway.current_batch n = Railway.current_batch ((n - 1) mod 53 + 1).
Proof.
  unfold Railway.current_batch, Railway.end_idx. now rewrite <- start_idx_mod.
Qed.

Lemma mem_elem_of (s : string) (l : list string) :
  PyStr.mem s l = true <-> s ∈ l.
Proof.
  unfold PyStr.mem. rewrite existsb_exists, list_elem_of_In. split.
  - intros (x & Hin & Heq). apply String.eqb_eq in Heq. now subst.
  - intros Hin. exists s. split; [exact Hin|apply String.eqb_refl].
Qed.

(** From each of the 53 residues of the scan number, every coin comes up
    within 53 scans. *)
Lemma coverage_checked :
  forallb (fun r =>
             forallb (fun coin =>
                        existsb (fun k => PyStr.mem coin (Railway.current_batch (r + 1 + k)))
                                (seq 0 53))
                     Railway.coins_to_check)
          (seq 0 53) = true.
Proof. vm_compute. reflexivity. Qed.

Lemma btc_checked :
  forallb (fun r => Bool.eqb (PyStr.mem "BTC" (Railway.current_batch (r + 1)))
                             (Nat.eqb r 0))
          (seq 0 53) = true.
Proof. vm_compute. reflexivity. Qed.

End Rotation.

(** X10. A scan of [bot_railway] polls between one and six coins, a run of
    consecutive coins of the list; the batch depends on the scan number
    modulo 53 only, and every coin of the list is polled at least once in
    any 53 consecutive scans. *)
Theorem X10_rotation_covers_every_coin (n : nat) (coin : string) :
  (1 <= n)%nat ->
  coin ∈ Railway.coins_to_check ->
  (1 <= length (Railway.current_batch n) <= 6)%nat
  /\ (exists before after,
        Railway.coins_to_check = before ++ Railway.current_batch n ++ after)
  /\ Railway.current_batch (n + 53) = Railway.current_batch n
  /\ exists k, (k < 53)%nat /\ coin ∈ Railway.current_batch (n + k).
Proof.
  intros Hn Hcoin. split; [|split; [|split]].
  - unfold Railway.current_batch, Railway.end_idx.
    rewrite length_take, length_drop, coins_count.
    pose proof (start_idx_bound n). unfold Railway.batch_size. lia.
  - unfold Railway.current_batch.
    exists (take (Railway.start_idx n) Railway.coins_to_check),
      (drop (Railway.end_idx n - Railway.start_idx n)
            (drop (Railway.start_idx n) Railway.coins_to_check)).
    now rewrite !take_drop.
  - rewrite (current_batch_mod (n + 53)), (current_batch_mod n).
    do 2 f_equal. replace (n + 53 - 1)%nat with ((n - 1) + 1 * 53)%nat by lia.
    apply Nat.Div0.mod_add.
  - pose proof coverage_checked as Hall.
    rewrite forallb_forall in Hall.
    specialize (Hall ((n - 1) mod 53)%nat).
    rewrite forallb_forall in Hall.
    assert (In ((n - 1) mod 53)%nat (seq 0 53)) as Hr.
    { apply in_seq. pose proof (Nat.mod_upper_bound (n - 1) 53). lia. }
    specialize (Hall Hr coin (proj1 (list_elem_of_In _ _) Hcoin)).
    apply existsb_exists in Hall as (k & Hk & Hmem).
    apply in_seq in Hk. exists k. split; [lia|].
    apply mem_elem_of in Hmem.
    rewrite current_batch_mod in Hmem. rewrite current_batch_mod.
    replace ((n + k - 1) mod 53)%nat
      with (((n - 1) mod 53 + 1 + k - 1) mod 53)%nat; [exact Hmem|].
    replace ((n - 1) mod 53 + 1 + k - 1)%nat with ((n - 1) mod 53 + k)%nat by lia.
    replace (n + k - 1)%nat with ((n - 1) + k)%nat by lia.
    now rewrite Nat.Div0.add_mod_idemp_l.
Qed.

Lemma X10_rotation_covers_every_coin_witness :
  (1 <= length (Railway.current_batch 9) <= 6)%nat
  /\ (exists before after,
        Railway.coins_to_check = before ++ Railway.current_batch 9 ++ after)
  /\ Railway.current_batch (9 + 53) = Railway.current_batch 9
  /\ exists k, (k < 53)%nat /\ "BOME"%string ∈ Railway.current_batch (9 + k).
Proof.
  apply (X10_rotation_covers_every_coin 9 "BOME").
  - lia.
  - apply mem_elem_of. reflexivity.
Defined.

(** X11. BTC, the first coin of the list, is polled by [bot_railway] only
    in the scans whose number is 1 modulo 53: once in 53 scans. *)
Theorem X11_btc_polled_once_in_53 (n : nat) :
  (1 <= n)%nat ->
  "BTC"%string ∈ Railway.current_batch n <-> ((n - 1) mod 53 = 0)%nat.
Proof.
  intros Hn. rewrite current_batch_mod, <- mem_elem_of.
  pose proof btc_checked as Hall. rewrite forallb_forall in Hall.
  assert (In ((n - 1) mod 53)%nat (seq 0 53)) as Hr.
  { apply in_seq. pose proof (Nat.mod_upper_bound (n - 1) 53). lia. }
  specialize (Hall _ Hr). apply Bool.eqb_prop in Hall. rewrite Hall.
  apply Nat.eqb_eq.
Qed.

Lemma X11_btc_polled_once_in_53_witness :
  "BTC"%string ∈ Railway.current_batch 54 <-> ((54 - 1) mod 53 = 0)%nat.
Proof. apply (X11_btc_polled_once_in_53 54). lia. Defined.

(** ** What [bot_railway] reports *)

Section RailwayEvents.

Lemma railway_significant_value (coin : string) (sz v : float) :
  Railway.is_significant coin sz v = true -> PyFloat.gt_int v 500 = true.
Proof.
  unfold Railway.is_significant.
  repeat match goal with
         | |- context [if PyStr.mem coin ?l then _ else _] =>
             destruct (PyStr.mem coin l)
         end;
    intros [_ H]%andb_true_iff; apply (gt_int_mono v _ 500 H); lia.
Qed.

Lemma railway_classify_inv coin oha (e : entry) (l : Railway.liquidation) :
  Railway.classify coin oha e = Val (Some l) ->
  Railway.coin l = coin
  /\ PyFloat.int_lt (Railway.time l) oha = false
  /\ Railway.is_significant coin (Railway.sz l) (Railway.sz l * Railway.px l) = true.
Proof.
  destruct e as [|t]; [discriminate|]. unfold Railway.classify.
  destruct (get_or 0 (tr_time t)) as [tm|]; [|discriminate].
  cbn [mbind exn_bind].
  destruct (PyFloat.int_lt tm oha) eqn:Hr; [discriminate|].
  destruct (get_or 0%float (tr_sz t)) as [sz|]; [|discriminate].
  destruct (get_or 0%float (tr_px t)) as [px|]; [|discriminate].
  cbn [mbind exn_bind].
  destruct (Railway.is_significant _ _ _) eqn:Hs; [|discriminate].
  intros [= <-]. auto.
Qed.

Lemma railway_send_large_spec min_value (ls : list Railway.liquidation) :
  (fst <$> Railway.send_large min_value ls) `sublist_of` ls
  /\ Forall (fun d : Railway.liquidation * string =>
               PyFloat.ge_int (Railway.sz d.1 * Railway.px d.1) min_value = true
               /\ Railway.message d.1 = Val d.2)
            (Railway.send_large min_value ls).
Proof.
  induction ls as [|l rest [IHs IHf]]; [split; constructor|].
  cbn [Railway.send_large].
  destruct (PyFloat.ge_int _ _) eqn:Hge; [|split; [now constructor|exact IHf]].
  unfold Railway.send_liquidation.
  destruct (Railway.message l) as [m|] eqn:Hm;
    [|split; [now constructor|exact IHf]].
  split; [now constructor|]. constructor; [auto|exact IHf].
Qed.

End RailwayEvents.

(** X12. Every liquidation [identify_liquidations] of [bot_railway]
    returns is for the coin asked, is not older than one hour, and passes
    the thresholds of its coin; in every tier this makes its value more
    than 500. *)
Theorem X12_railway_events_are_sound (now : float) (r : response) (coin : string) :
  Forall (fun l =>
            Railway.coin l = coin
            /\ PyFloat.int_lt (Railway.time l) (now - 3600000)%float = false
            /\ Railway.is_significant coin (Railway.sz l)
                 (Railway.sz l * Railway.px l) = true
            /\ PyFloat.gt_int (Railway.sz l * Railway.px l) 500 = true)
         (Railway.identify_liquidations now r coin).
Proof.
  destruct r as [| |trades]; try constructor.
  unfold Railway.identify_liquidations.
  induction trades as [|e rest IH]; [constructor|].
  cbn [Railway.scan_trades].
  destruct (Railway.classify coin _ e) as [[l|]|] eqn:Hc; try exact IH.
  apply railway_classify_inv in Hc as (Hcoin & Hr & Hs).
  constructor; [|exact IH].
  repeat split; try assumption. now apply (railway_significant_value coin (Railway.sz l)).
Qed.

(** X13. The alerts [bot_railway] sends for a coin are for liquidations
    that [identify_liquidations] returned, in the same order; each has a
    value of at least the configured minimum, and the text sent is the
    message built from it. *)
Theorem X13_railway_alerts (min_value : Z) (coin : string) (now : float)
    (r : response) :
  (fst <$> Railway.process_coin min_value coin now r)
    `sublist_of` Railway.identify_liquidations now r coin
  /\ Forall (fun d : Railway.liquidation * string =>
               PyFloat.ge_int (Railway.sz d.1 * Railway.px d.1) min_value = true
               /\ Railway.message d.1 = Val d.2)
            (Railway.process_coin min_value coin now r).
Proof. apply railway_send_large_spec. Qed.

(** ** What [bot_railway_futures] reports *)

Section FuturesEvents.

Lemma futures_classify_readable min_value token tma (t : trade) tm sz px :
  get_or 0 (tr_time t) = Val tm ->
  PyFloat.int_lt tm tma = false ->
  get_or 0%float (tr_sz t) = Val sz ->
  get_or 0%float (tr_px t) = Val px ->
  Futures.classify min_value token tma (Dict t)
  = if Futures.is_liquidation token sz (sz * px)
       && PyFloat.ge_int (sz * px) min_value
    then Val (Some {| Futures.coin := token; Futures.sz := sz; Futures.px := px;
                      Futures.side := match tr_side t with
                                      | Absent => Some ""%string
                                      | Present s => Some s
                                      | Bad => None
                                      end;
                      Futures.time := tm; Futures.value_usd := (sz * px)%float |})
    else Val None.
Proof.
  intros Ht Hr Hs Hp. unfold Futures.classify.
  rewrite Ht. cbn [mbind exn_bind]. rewrite Hr, Hs, Hp. reflexivity.
Qed.

Lemma futures_classify_inv min_value token tma (e : entry) (l : Futures.liquidation) :
  Futures.classify min_value token tma e = Val (Some l) ->
  Futures.coin l = token
  /\ PyFloat.int_lt (Futures.time l) tma = false
  /\ Futures.value_usd l = (Futures.sz l * Futures.px l)%float
  /\ Futures.is_liquidation token (Futures.sz l) (Futures.value_usd l) = true
  /\ PyFloat.ge_int (Futures.value_usd l) min_value = true.
Proof.
  destruct e as [|t]; [discriminate|]. unfold Futures.classify.
  destruct (get_or 0 (tr_time t)) as [tm|]; [|discriminate].
  cbn [mbind exn_bind].
  destruct (PyFloat.int_lt tm tma) eqn:Hr; [discriminate|].
  destruct (get_or 0%float (tr_sz t)) as [sz|]; [|discriminate].
  destruct (get_or 0%float (tr_px t)) as [px|]; [|discriminate].
  cbn [mbind exn_bind].
  destruct (Futures.is_liquidation _ _ _) eqn:Hl; [|discriminate].
  destruct (PyFloat.ge_int _ _) eqn:Hge; [|discriminate].
  intros [= <-]. auto 10.
Qed.

Lemma futures_liquidation_value (token : string) (sz v : float) :
  Futures.is_liquidation token sz v = true -> PyFloat.gt_int v 5000 = true.
Proof.
  unfold Futures.is_liquidation. destruct (PyStr.mem token _).
  - intros [_ H]%andb_true_iff. apply (gt_int_mono v _ 5000 H). lia.
  - now destruct (PyFloat.gt_int v 5000).
Qed.

(** Over a minimum of more than 10000 the value thresholds of the tokens
    add nothing to the minimum. *)
Lemma futures_decision (min_value : Z) (token : string) (sz v : float) :
  10000 < min_value ->
  Futures.is_liquidation token sz v && PyFloat.ge_int v min_value
  = (if PyStr.mem token ["BTC"; "ETH"]%string then PyFloat.gt sz 0.5 else true)
    && PyFloat.ge_int v min_value.
Proof.
  intros Hmin. unfold Futures.is_liquidation.
  destruct (PyFloat.ge_int v min_value) eqn:Hge; [|now rewrite !andb_false_r].
  rewrite (ge_int_gt_below v min_value 10000 Hge Hmin).
  rewrite (ge_int_gt_below v min_value 5000 Hge ltac:(lia)).
  destruct (PyStr.mem token _); [now rewrite andb_true_r|reflexivity].
Qed.

End FuturesEvents.

(** X14. With a configured minimum of more than 10000 (the default is
    50000), [get_futures_liquidations] reports a readable recent trade
    exactly when its value is at least the minimum and, for BTC and ETH,
    its size is more than 0.5: the value thresholds of 10000 and 5000 of
    the source then decide nothing. *)
Theorem X14_futures_thresholds_subsumed (min_value : Z) (token : string)
    (ten_minutes_ago : float) (t : trade) (tm : Z) (sz px : float) :
  10000 < min_value ->
  get_or 0 (tr_time t) = Val tm ->
  PyFloat.int_lt tm ten_minutes_ago = false ->
  get_or 0%float (tr_sz t) = Val sz ->
  get_or 0%float (tr_px t) = Val px ->
  (exists l, Futures.classify min_value token ten_minutes_ago (Dict t) = Val (Some l))
  <-> (PyFloat.ge_int (sz * px) min_value = true
       /\ (PyStr.mem token ["BTC"; "ETH"]%string = true -> PyFloat.gt sz 0.5 = true)).
Proof.
  intros Hmin Ht Hr Hs Hp.
  rewrite (futures_classify_readable min_value token ten_minutes_ago t tm sz px Ht Hr Hs Hp).
  rewrite (futures_decision min_value token sz _ Hmin).
  destruct (PyFloat.ge_int _ _); [|rewrite andb_false_r; split;
                                    [intros [l Hl]|intros [Hf _]]; discriminate].
  rewrite andb_true_r.
  destruct (PyStr.mem token _); [destruct (PyFloat.gt sz 0.5)|].
  - split; [auto|intros _; eexists; reflexivity].
  - split; [intros [l Hl]; discriminate|intros [_ Hf]; discriminate (Hf eq_refl)].
  - split; [intros _; split; [reflexivity|discriminate]|intros _; eexists; reflexivity].
Qed.

Lemma X14_futures_thresholds_subsumed_witness :
  (exists l, Futures.classify 50000 "BTC" 1699999400000
               (Dict (btc_trade 1699999990000 "0xabc")) = Val (Some l))
  <-> (PyFloat.ge_int (3 * 60000) 50000 = true
       /\ (PyStr.mem "BTC" ["BTC"; "ETH"]%string = true -> PyFloat.gt 3 0.5 = true)).
Proof.
  apply (X14_futures_thresholds_subsumed 50000 "BTC" 1699999400000
           (btc_trade 1699999990000 "0xabc") 1699999990000 3 60000).
  - lia.
  - reflexivity.
  - vm_compute. reflexivity.
  - reflexivity.
  - reflexivity.
Defined.

(** X15. Every liquidation [get_futures_liquidations] returns is for the
    token asked, is not older than ten minutes, has the product of its
    size and price as value, and a value of at least the configured
    minimum and of more than 5000; the alerts of
    [process_token_liquidations] are for some of them, in order. *)
Theorem X15_futures_events_are_sound (min_value : Z) (token : string)
    (now : float) (r : response) :
  Forall (fun l =>
            Futures.coin l = token
            /\ PyFloat.int_lt (Futures.time l) (now - 600000)%float = false
            /\ Futures.value_usd l = (Futures.sz l * Futures.px l)%float
            /\ PyFloat.ge_int (Futures.value_usd l) min_value = true
            /\ PyFloat.gt_int (Futures.value_usd l) 5000 = true)
         (Futures.get_futures_liquidations min_value token now r)
  /\ (fst <$> Futures.process_token_liquidations min_value token now r)
       `sublist_of` Futures.get_futures_liquidations min_value token now r.
Proof.
  split.
  - destruct r as [| |trades]; try constructor.
    unfold Futures.get_futures_liquidations.
    induction trades as [|e rest IH]; [constructor|].
    cbn [Futures.scan_trades].
    destruct (Futures.classify min_value token _ e) as [[l|]|] eqn:Hc;
      try exact IH.
    apply futures_classify_inv in Hc as (Hcoin & Hr & Hv & Hl & Hge).
    constructor; [|exact IH].
    repeat split; try assumption.
    now apply (futures_liquidation_value token (Futures.sz l)).
  - unfold Futures.process_token_liquidations.
    induction (Futures.get_futures_liquidations min_value token now r)
      as [|l rest IH]; [constructor|].
    cbn [Futures.send_alerts].
    destruct (Futures.alert_message l); now constructor.
Qed.

(** ** The token list of [bot_railway_futures] *)

(** X16. The list [get_recent_trades_all_tokens] hands to the scan names
    no token twice, also when the universe does; it is the hardcoded list
    of three tokens or the content of the cache. *)
Theorem X16_token_list_without_repeats (b : Futures.bot) (now : float)
    (r1 r2 : meta_response Futures.token) :
  NoDup (Futures.get_recent_trades_all_tokens b now r1 r2).2
  /\ ((Futures.get_recent_trades_all_tokens b now r1 r2).2 = Futures.fallback_tokens
      \/ forall tok,
           tok ∈ (Futures.get_recent_trades_all_tokens b now r1 r2).2
           <-> tok ∈ Futures.all_tokens
                       (Futures.get_recent_trades_all_tokens b now r1 r2).1).
Proof.
  assert (NoDup Futures.fallback_tokens) as Hfb.
  { unfold Futures.fallback_tokens. apply NoDup_ListNoDup.
    repeat constructor; simpl; intuition discriminate. }
  unfold Futures.get_recent_trades_all_tokens.
  destruct (Futures.refresh b now r1) as [b1 [[]|]]; [|now split; [|left]].
  destruct (Futures.fill_empty b1 r2) as [b2 [[]|]]; [|now split; [|left]].
  cbn [fst snd]. split; [apply NoDup_elements|right].
  intros tok. apply elem_of_elements.
Qed.

(** X17. With a cache that is not empty, [get_recent_trades_all_tokens]
    never returns the empty list, whatever the requests give: the scan is
    left without tokens only while the cache is empty. *)
Theorem X17_nonempty_cache_nonempty_list (b : Futures.bot) (now : float)
    (r1 r2 : meta_response Futures.token) :
  Futures.all_tokens b <> ∅ ->
  (Futures.get_recent_trades_all_tokens b now r1 r2).2 <> [].
Proof.
  intros Hne Hnil.
  pose proof (get_recent_trades_all_tokens_grows b now r1 r2) as Hgrow.
  unfold Futures.get_recent_trades_all_tokens in *.
  destruct (Futures.refresh b now r1) as [b1 [[]|]]; [|discriminate].
  destruct (Futures.fill_empty b1 r2) as [b2 [[]|]]; [|discriminate].
  cbn [fst snd] in *.
  apply elements_empty_inv, leibniz_equiv in Hnil.
  apply Hne. apply leibniz_equiv. apply equiv_empty. now rewrite <- Hnil.
Qed.

Lemma X17_nonempty_cache_nonempty_list_witness :
  (Futures.get_recent_trades_all_tokens
     {| Futures.all_tokens := {[ "BTC"%string ]}; Futures.last_token_update := 0 |}
     1700000000 MetaFailed MetaFailed).2 <> [].
Proof.
  apply (X17_nonempty_cache_nonempty_list
           {| Futures.all_tokens := {[ "BTC"%string ]};
              Futures.last_token_update := 0 |}).
  simpl. intros H. apply (f_equal size) in H.
  rewrite size_singleton, size_empty in H. discriminate.
Defined.

(** ** The Telegram client *)

Section Client.

Lemma send_messages_spec (calls : list (Telegram.reply * float)) (c : Telegram.client) :
  Telegram.messages_sent (Telegram.send_messages c calls).1
  = (Telegram.messages_sent c
     + length (filter (fun ok : bool => ok = true) (Telegram.send_messages c calls).2))%nat
  /\ Telegram.min_interval (Telegram.send_messages c calls).1 = Telegram.min_interval c
  /\ (Telegram.send_messages c calls).2
     = (fun call : Telegram.reply * float =>
          match call.1 with Telegram.Replied true => true | _ => false end) <$> calls.
Proof.
  revert c; induction calls as [|[r sent_at] rest IH]; intros c.
  - simpl. repeat split. lia.
  - cbn [Telegram.send_messages].
    destruct r as [|[]]; cbn [Telegram.send_message].
    + destruct (IH c) as (H1 & H2 & H3).
      destruct (Telegram.send_messages c rest) as [c2 oks]. simpl in *.
      rewrite filter_cons_False by discriminate.
      repeat split; [exact H1|exact H2|now f_equal].
    + set (c1 := Telegram.Client _ _ _).
      destruct (IH c1) as (H1 & H2 & H3).
      destruct (Telegram.send_messages c1 rest) as [c2 oks].
      subst c1. cbn [fst snd Telegram.messages_sent Telegram.min_interval] in *.
      rewrite filter_cons_True by reflexivity. cbn [length].
      repeat split; [lia|exact H2|now rewrite fmap_cons, H3].
    + destruct (IH c) as (H1 & H2 & H3).
      destruct (Telegram.send_messages c rest) as [c2 oks]. simpl in *.
      rewrite filter_cons_False by discriminate.
      repeat split; [exact H1|exact H2|now f_equal].
Qed.

Lemma send_messages_all_failed (calls : list (Telegram.reply * float)) (c : Telegram.client) :
  Forall (fun call : Telegram.reply * float => call.1 <> Telegram.Replied true) calls ->
  (Telegram.send_messages c calls).1 = c.
Proof.
  induction 1 as [|[r sent_at] rest Hr _ IH]; [reflexivity|].
  cbn [Telegram.send_messages]. simpl in Hr.
  destruct r as [|[]]; cbn [Telegram.send_message]; try congruence;
    destruct (Telegram.send_messages c rest); simpl in *; congruence.
Qed.

End Client.

(** X18. Over any sequence of calls of [send_message], the counter
    [messages_sent] advances by the number of calls that returned [True],
    which are the calls Telegram answered with a true ['ok']; the interval
    is never written; and while no call succeeds the client is left as it
    was, the time of the last message included. *)
Theorem X18_messages_sent_counts_successes
    (calls : list (Telegram.reply * float)) (c : Telegram.client) :
  Telegram.messages_sent (Telegram.send_messages c calls).1
  = (Telegram.messages_sent c
     + length (filter (fun ok : bool => ok = true) (Telegram.send_messages c calls).2))%nat
  /\ Telegram.min_interval (Telegram.send_messages c calls).1 = Telegram.min_interval c
  /\ (Telegram.send_messages c calls).2
     = (fun call : Telegram.reply * float =>
          match call.1 with Telegram.Replied true => true | _ => false end) <$> calls
  /\ (Forall (fun call : Telegram.reply * float => call.1 <> Telegram.Replied true) calls ->
      (Telegram.send_messages c calls).1 = c).
Proof.
  destruct (send_messages_spec calls c) as (H1 & H2 & H3).
  repeat split; try assumption. apply send_messages_all_failed.
Qed.

(** ** Directions and markers across the three bots *)

Section Directions.

Lemma mem_final_sides (x : string) :
  PyStr.mem x Final.short_sides
  = PyStr.mem x Futures.short_sides || String.eqb x "s".
Proof.
  unfold PyStr.mem, Final.short_sides, Futures.short_sides. simpl.
  now rewrite !orb_false_r, orb_assoc.
Qed.

End Directions.

(** X19. [bot_railway] and [bot_railway_futures] give every side the same
    direction, and [bot_final_liquidations] gives it too to every ASCII
    side unless the side is ["s"] or ["S"], which it alone reads as a
    sell.  The marker of a SHORT is green in [bot_final_liquidations] and
    [bot_railway_futures] and red in [bot_railway], and the marker of a
    LONG the other one. *)
Theorem X19_directions_across_bots (side : string) :
  Railway.direction side = Futures.direction side
  /\ (PyStr.lower side <> "s"%string -> PyStr.is_ascii side = true ->
      Final.direction side = Futures.direction side)
  /\ (PyStr.lower side = "s"%string ->
      Final.direction side = "SHORT"%string /\ Futures.direction side = "LONG"%string)
  /\ Final.point side
     = (if String.eqb (Final.direction side) "SHORT" then "🟢" else "🔴")%string
  /\ Futures.point side
     = (if String.eqb (Futures.direction side) "SHORT" then "🟢" else "🔴")%string
  /\ Railway.point side
     = (if String.eqb (Railway.direction side) "SHORT" then "🔴" else "🟢")%string.
Proof.
  split; [reflexivity|]. split; [|split].
  - intros Hs Ha. unfold Final.direction, Futures.direction.
    rewrite (lower_upper side Ha), mem_final_sides.
    apply String.eqb_neq in Hs. now rewrite Hs, orb_false_r.
  - intros Hs.
    destruct side as [|c [|c2 rest]]; try discriminate.
    destruct c as [[] [] [] [] [] [] [] []]; try discriminate;
      split; reflexivity.
  - unfold Final.direction, Futures.direction, Railway.direction,
      Final.point, Futures.point, Railway.point.
    change Railway.short_sides with Futures.short_sides.
    destruct (PyStr.mem (PyStr.lower side) Final.short_sides),
      (PyStr.mem (PyStr.lower (PyStr.upper side)) Futures.short_sides);
      repeat split; reflexivity.
Qed.

(** ** A liquidation whose side is no string *)

Section LostAlert.

Lemma classify_side (b : Final.bot) coin fma (t : trade) (l : Final.liquidation) :
  Final.classify b coin fma (Dict t) = Val (Some l) ->
  Final.side l = match tr_side t with
                 | Absent => Some ""%string
                 | Present s => Some s
                 | Bad => None
                 end.
Proof.
  unfold Final.classify.
  destruct (get_or ""%string (tr_hash t)) as [h|]; [|discriminate].
  cbn [mbind exn_bind]. case_bool_decide; [discriminate|].
  destruct (get_or 0 (tr_time t)) as [tm|]; [|discriminate].
  cbn [mbind exn_bind]. destruct (PyFloat.int_lt tm fma); [discriminate|].
  destruct (get_or 0%float (tr_sz t)) as [sz|]; [|discriminate].
  destruct (get_or 0%float (tr_px t)) as [px|]; [|discriminate].
  cbn [mbind exn_bind]. destruct (PyFloat.lt_int _ _); [discriminate|].
  destruct (get_or [] (tr_users t)) as [us|]; [|discriminate].
  cbn [mbind exn_bind].
  destruct (if PyFloat.ge_int _ _ then true else _); [|discriminate].
  now intros [= <-].
Qed.

End LostAlert.

(** X20. A trade that passes the classification with a ['side'] that is
    no string is counted and its identifier enters the seen set, but
    building its message raises and nothing is sent; as the identifier is
    then seen, no later scan sends an alert for it either. *)
Theorem X20_alert_lost_on_bad_side (b : Final.bot) (coin : string)
    (now : float) (t : trade) (l : Final.liquidation)
    (cycles : list Final.cycle) :
  tr_side t = Bad ->
  Final.classify b coin (now - 300000)%float (Dict t) = Val (Some l) ->
  (Final.process_batch b [(coin, (now, Items [Dict t]))]).2 = []
  /\ (Final.hash l
        ∈ Final.processed_hashes
            (Final.process_batch b [(coin, (now, Items [Dict t]))]).1)
  /\ Final.liquidations_count
       (Final.process_batch b [(coin, (now, Items [Dict t]))]).1
     = S (Final.liquidations_count b)
  /\ (forall d : Final.dispatch,
        d ∈ (Final.monitor_liquidations
               (Final.process_batch b [(coin, (now, Items [Dict t]))]).1 cycles).2 ->
        Final.hash d.1 <> Final.hash l).
Proof.
  intros Hside Hc.
  pose proof (classify_side b coin _ t l Hc) as Hl. rewrite Hside in Hl.
  assert (Final.process_batch b [(coin, (now, Items [Dict t]))]
          = ({| Final.min_liquidation_value := Final.min_liquidation_value b;
                Final.liquidations_count := S (Final.liquidations_count b);
                Final.processed_hashes := {[ Final.hash l ]} ∪ Final.processed_hashes b |},
             [])) as Hrun.
  { unfold Final.process_batch. cbn [Final.gather Final.analyze_coin_liquidations
                                     Final.scan_trades].
    rewrite Hc. cbn [concat app Final.send_all].
    unfold Final.send_liquidation_alert, Final.alert_message.
    rewrite Hl. reflexivity. }
  rewrite Hrun. cbn [fst snd].
  assert (Final.hash l ∈ ({[ Final.hash l ]} ∪ Final.processed_hashes b : gset string))
    as Hin by (apply elem_of_union_l; now apply elem_of_singleton).
  repeat split; [exact Hin|].
  intros d Hd Heq.
  pose proof (monitor_dedup cycles
                {| Final.min_liquidation_value := Final.min_liquidation_value b;
                   Final.liquidations_count := S (Final.liquidations_count b);
                   Final.processed_hashes := {[ Final.hash l ]} ∪ Final.processed_hashes b |})
    as Hdr.
  apply (dedup_run_unseen _ _ d Hdr Hd). rewrite Heq. exact Hin.
Qed.

(** A recent trade of 3.0 BTC at 60000 whose side is a number. *)
Definition sideless_trade : trade :=
  {| tr_time := Present 1699999990000; tr_hash := Present "0x31"%string;
     tr_sz := Present 3%float; tr_px := Present 60000%float;
     tr_side := Bad; tr_users := Present [] |}.

Definition sideless_liquidation : Final.liquidation :=
  {| Final.coin := "BTC"; Final.sz := 3; Final.px := 60000;
     Final.side := None; Final.value_usd := 180000;
     Final.time := 1699999990000; Final.hash := "0x31";
     Final.users := [] |}.

Lemma X20_alert_lost_on_bad_side_witness :
  (Final.process_batch (Final.init 50000)
     [("BTC"%string, (1700000000000%float, Items [Dict sideless_trade]))]).2 = []
  /\ (Final.hash sideless_liquidation
        ∈ Final.processed_hashes
            (Final.process_batch (Final.init 50000)
               [("BTC"%string, (1700000000000%float, Items [Dict sideless_trade]))]).1)
  /\ Final.liquidations_count
       (Final.process_batch (Final.init 50000)
          [("BTC"%string, (1700000000000%float, Items [Dict sideless_trade]))]).1
     = S (Final.liquidations_count (Final.init 50000))
  /\ (forall d : Final.dispatch,
        d ∈ (Final.monitor_liquidations
               (Final.process_batch (Final.init 50000)
                  [("BTC"%string, (1700000000000%float, Items [Dict sideless_trade]))]).1
               []).2 ->
        Final.hash d.1 <> Final.hash sideless_liquidation).
Proof.
  apply (X20_alert_lost_on_bad_side (Final.init 50000) "BTC" 1700000000000
           sideless_trade sideless_liquidation []).
  - reflexivity.
  - unfold Final.classify.
    cbn [sideless_trade tr_hash tr_time tr_sz tr_px tr_side tr_users get_or
         mbind exn_bind Final.processed_hashes Final.init
         Final.min_liquidation_value].
    rewrite bool_decide_eq_false_2 by apply not_elem_of_empty.
    vm_compute. reflexivity.
Defined.
